(** * Meal ordering system: the service layer of [app/services_fixed.py]

    A shallow embedding of the account, catalog, cart and order services
    over the tables declared in [app/models.py], and the properties of the
    order-placement transaction and of the cart that the specification
    states.

    Conventions of the embedding.
    - A table with an integer primary key is a finite map from the key to
      the row; an object loaded from a table is the pair of its key and
      its row, so [o.1] is [o.id].
    - A [Decimal] column with two decimal places is the integer number of
      hundredths it denotes: 15.99 is [1599].  Python's [Decimal] product
      with an [int] and sum are exact on such values as long as the result
      has at most 28 significant digits (the columns hold 10), and so are
      [Z.mul] and [Z.add].
    - [app/database.py] is not among the sources: what the services need
      of the storage (queries, fresh keys, commits and their failure) is
      modelled where it is introduced.
    - The timestamp columns ([created_at], [updated_at], [order_date]) are
      left out: no operation reads them.  [pickup_time] is kept as an
      opaque number.
    - The department service is left out: no property below involves it. *)

From stdpp Require Import gmap strings list fin_maps.

Local Open Scope Z_scope.

(** ** Enumerations of [app/models.py] *)

Inductive UserRole := REGULAR | ADMIN.
Inductive OrderStatus :=
  PENDING | CONFIRMED | PREPARING | READY | COMPLETED | CANCELLED.
Inductive DeliveryType := PICKUP | DELIVERY.

(** ** Rows of the tables *)

Record User := mkUser {
  u_name : string;
  u_email : string;
  u_password_hash : string;
  u_phone : string;
  u_role : UserRole;
  u_department_id : option Z;
  u_is_active : bool }.

Record Dish := mkDish {
  d_name : string;
  d_price : Z;
  d_description : string;
  d_image_url : option string;
  d_category : string;
  d_stock_quantity : Z;
  d_is_available : bool }.

Record Order := mkOrder {
  o_user_id : Z;
  o_pickup_time : Z;
  o_delivery_type : DeliveryType;
  o_status : OrderStatus;
  o_total_amount : Z;
  o_remarks : string }.

Record OrderItem := mkOrderItem {
  oi_order_id : Z;
  oi_dish_id : Z;
  oi_quantity : Z;
  oi_unit_price : Z;
  oi_subtotal : Z }.

Record CartItem := mkCartItem {
  ci_user_id : Z;
  ci_dish_id : Z;
  ci_quantity : Z }.

(** ** Validation schemas (the [table=False] models) *)

Record UserCreate := mkUserCreate {
  uc_name : string;
  uc_email : string;
  uc_password : string;
  uc_phone : string;
  uc_department_id : option Z }.

Record UserLogin := mkUserLogin {
  ul_email : string;
  ul_password : string }.

Record DishCreate := mkDishCreate {
  dc_name : string;
  dc_price : Z;
  dc_description : string;
  dc_image_url : option string;
  dc_category : string;
  dc_stock_quantity : Z }.

(** A field of an update schema: never assigned ([Unset], dropped by
    [model_dump(exclude_unset=True)]), or assigned a value, which for an
    [Optional] field may be [None]. *)
Inductive upd (A : Type) := Unset | Assigned (v : option A).
Arguments Unset {A}.
Arguments Assigned {A} v.

Record DishUpdate := mkDishUpdate {
  du_name : upd string;
  du_price : upd Z;
  du_description : upd string;
  du_image_url : upd string;
  du_category : upd string;
  du_stock_quantity : upd Z;
  du_is_available : upd bool }.

Record OrderCreate := mkOrderCreate {
  oc_pickup_time : Z;
  oc_delivery_type : DeliveryType;
  oc_remarks : option string }.

Record CartItemCreate := mkCartItemCreate {
  cc_dish_id : Z;
  cc_quantity : Z }.

Record CartItemUpdate := mkCartItemUpdate {
  cu_quantity : Z }.

(** The constraints the schemas enforce on construction
    ([Field(ge=0)], [Field(ge=1)]). *)
Definition upd_ge (lo : Z) (u : upd Z) : Prop :=
  match u with Assigned (Some v) => lo ≤ v | _ => True end.

Definition DishCreate_valid (c : DishCreate) : Prop := 0 ≤ dc_stock_quantity c.
Definition DishUpdate_valid (u : DishUpdate) : Prop := upd_ge 0 (du_stock_quantity u).
Definition CartItemCreate_valid (c : CartItemCreate) : Prop := 1 ≤ cc_quantity c.
Definition CartItemUpdate_valid (c : CartItemUpdate) : Prop := 1 ≤ cu_quantity c.

(** ** The database *)

Record db := mkDb {
  users : gmap Z User;
  dishes : gmap Z Dish;
  cart_items : gmap Z CartItem;
  orders : gmap Z Order;
  order_items : gmap Z OrderItem }.

Definition empty_db : db := mkDb ∅ ∅ ∅ ∅ ∅.

Definition set_users (f : gmap Z User → gmap Z User) (d : db) : db :=
  mkDb (f (users d)) (dishes d) (cart_items d) (orders d) (order_items d).
Definition set_dishes (f : gmap Z Dish → gmap Z Dish) (d : db) : db :=
  mkDb (users d) (f (dishes d)) (cart_items d) (orders d) (order_items d).
Definition set_cart_items (f : gmap Z CartItem → gmap Z CartItem) (d : db) : db :=
  mkDb (users d) (dishes d) (f (cart_items d)) (orders d) (order_items d).
Definition set_orders (f : gmap Z Order → gmap Z Order) (d : db) : db :=
  mkDb (users d) (dishes d) (cart_items d) (f (orders d)) (order_items d).
Definition set_order_items (f : gmap Z OrderItem → gmap Z OrderItem) (d : db) : db :=
  mkDb (users d) (dishes d) (cart_items d) (orders d) (f (order_items d)).

(** Modelled from the spec: [app/database.py] ([get_session] and the
    engine behind it) is not part of the sources.  The specification asks
    of the storage that it looks rows up by id, and that what a session
    wrote becomes visible at [commit] as one unit or not at all.  Here
    [select] is a query [select(T).where(P)], [next_id] is the key the
    storage gives a row added without one (one more than the largest key
    in use, the first key being 1), and a session that ends without
    [commit] leaves the database as the last [commit] made it. *)
Definition select {A} (P : Z * A → Prop) `{!∀ x, Decision (P x)}
    (t : gmap Z A) : list (Z * A) :=
  filter P (map_to_list t).

(** Modelled from the spec: the key the storage gives a new row is not
    decided by the sources; it is taken to be one more than the largest
    key of the table, so that it is positive and not in use. *)
Definition max_key {A} (t : gmap Z A) : Z :=
  foldr Z.max 0 ((map_to_list t).*1).

Definition next_id {A} (t : gmap Z A) : Z := max_key t + 1.

(** What a call may do other than return: the storage raised. *)
Inductive outcome (A : Type) := Returned (a : A) | Raised.
Arguments Returned {A} a.
Arguments Raised {A}.

(** Modelled from the spec: a fault of the storage, which the sources do
    not define.  The storage either works, or fails from some commit of
    the session on: [FaultAfter n] lets [n] commits through and fails the
    next, which raises and leaves the database as the commits before it
    made it. *)
Inductive storage := Healthy | FaultAfter (n : nat).

Definition commit_ok (s : storage) (k : nat) : bool :=
  match s with
  | Healthy => true
  | FaultAfter n => bool_decide (k < n)%nat
  end.

(** ** The services *)

Section Services.

(** [hashlib.sha256(password.encode()).hexdigest()]: a function of the
    password alone, whose algorithm the services do not depend on. *)
Variable hash_password : string → string.

(** *** AuthenticationService *)

(** The row [register_user] builds: the password enters it through
    [hash_password] only, and the role is always [REGULAR]. *)
Definition new_user (user_data : UserCreate) : User :=
  {| u_name := uc_name user_data;
     u_email := uc_email user_data;
     u_password_hash := hash_password (uc_password user_data);
     u_phone := uc_phone user_data;
     u_role := REGULAR;
     u_department_id := uc_department_id user_data;
     u_is_active := true |}.

Definition register_user (d : db) (user_data : UserCreate)
    : db * option (Z * User) :=
  match head (select (λ r, u_email r.2 = uc_email user_data) (users d)) with
  | Some _ => (d, None)
  | None =>
      let user := new_user user_data in
      let id := next_id (users d) in
      (set_users (insert id user) d, Some (id, user))
  end.

Definition authenticate_user (d : db) (login_data : UserLogin)
    : option (Z * User) :=
  match head (select (λ r, u_email r.2 = ul_email login_data) (users d)) with
  | Some user =>
      if decide (u_password_hash user.2 = hash_password (ul_password login_data))
      then Some user
      else None
  | None => None
  end.

Definition get_user_by_id (d : db) (user_id : Z) : option (Z * User) :=
  (λ u, (user_id, u)) <$> users d !! user_id.

(** *** DishService *)

Definition get_dish_by_id (d : db) (dish_id : Z) : option (Z * Dish) :=
  (λ x, (dish_id, x)) <$> dishes d !! dish_id.

Definition create_dish (d : db) (dish_data : DishCreate) : db * (Z * Dish) :=
  let dish :=
    {| d_name := dc_name dish_data;
       d_price := dc_price dish_data;
       d_description := dc_description dish_data;
       d_image_url := dc_image_url dish_data;
       d_category := dc_category dish_data;
       d_stock_quantity := dc_stock_quantity dish_data;
       d_is_available := true |} in
  let id := next_id (dishes d) in
  (set_dishes (insert id dish) d, (id, dish)).

(** [setattr(dish, field, value)] on a column that is not nullable: the
    commit rejects a row holding [None] there. *)
Definition assign {A} (u : upd A) (current : A) : option A :=
  match u with
  | Unset => Some current
  | Assigned (Some v) => Some v
  | Assigned None => None
  end.

Definition assign_nullable {A} (u : upd A) (current : option A) : option A :=
  match u with
  | Unset => current
  | Assigned v => v
  end.

Definition update_fields (dish : Dish) (dish_data : DishUpdate) : option Dish :=
  name ← assign (du_name dish_data) (d_name dish);
  price ← assign (du_price dish_data) (d_price dish);
  description ← assign (du_description dish_data) (d_description dish);
  category ← assign (du_category dish_data) (d_category dish);
  stock_quantity ← assign (du_stock_quantity dish_data) (d_stock_quantity dish);
  is_available ← assign (du_is_available dish_data) (d_is_available dish);
  Some {| d_name := name;
          d_price := price;
          d_description := description;
          d_image_url := assign_nullable (du_image_url dish_data) (d_image_url dish);
          d_category := category;
          d_stock_quantity := stock_quantity;
          d_is_available := is_available |}.

Definition update_dish (d : db) (dish_id : Z) (dish_data : DishUpdate)
    : db * outcome (option (Z * Dish)) :=
  match dishes d !! dish_id with
  | None => (d, Returned None)
  | Some dish =>
      match update_fields dish dish_data with
      | Some dish' =>
          (set_dishes (insert dish_id dish') d, Returned (Some (dish_id, dish')))
      | None => (d, Raised)
      end
  end.

Definition hide (dish : Dish) : Dish :=
  {| d_name := d_name dish;
     d_price := d_price dish;
     d_description := d_description dish;
     d_image_url := d_image_url dish;
     d_category := d_category dish;
     d_stock_quantity := d_stock_quantity dish;
     d_is_available := false |}.

Definition delete_dish (d : db) (dish_id : Z) : db * bool :=
  match dishes d !! dish_id with
  | None => (d, false)
  | Some dish => (set_dishes (insert dish_id (hide dish)) d, true)
  end.

(** *** CartService *)

Definition get_cart_items (d : db) (user_id : Z) : list (Z * CartItem) :=
  select (λ r, ci_user_id r.2 = user_id) (cart_items d).

Definition with_quantity (item : CartItem) (q : Z) : CartItem :=
  {| ci_user_id := ci_user_id item;
     ci_dish_id := ci_dish_id item;
     ci_quantity := q |}.

Definition add_to_cart (d : db) (user_id : Z) (cart_data : CartItemCreate)
    : db * option (Z * CartItem) :=
  match dishes d !! cc_dish_id cart_data with
  | None => (d, None)
  | Some dish =>
      if negb (d_is_available dish)
         || bool_decide (d_stock_quantity dish < cc_quantity cart_data)
      then (d, None)
      else
        match head (select (λ r, ci_user_id r.2 = user_id
                                 ∧ ci_dish_id r.2 = cc_dish_id cart_data)
                      (cart_items d)) with
        | Some existing_item =>
            let new_quantity :=
              ci_quantity existing_item.2 + cc_quantity cart_data in
            if bool_decide (new_quantity > d_stock_quantity dish)
            then (d, None)
            else
              let item := with_quantity existing_item.2 new_quantity in
              (set_cart_items (insert existing_item.1 item) d,
               Some (existing_item.1, item))
        | None =>
            let cart_item :=
              {| ci_user_id := user_id;
                 ci_dish_id := cc_dish_id cart_data;
                 ci_quantity := cc_quantity cart_data |} in
            let id := next_id (cart_items d) in
            (set_cart_items (insert id cart_item) d, Some (id, cart_item))
        end
  end.

(** [for item in cart_items: session.delete(item)] *)
Definition delete_all {A} (items : list (Z * A)) (t : gmap Z A) : gmap Z A :=
  foldl (λ t item, delete item.1 t) t items.

Definition clear_cart (d : db) (user_id : Z) : db * bool :=
  let items := get_cart_items d user_id in
  (set_cart_items (delete_all items) d, true).

Definition get_cart_total (d : db) (user_id : Z) : Z :=
  foldl (λ total item,
           match dishes d !! ci_dish_id item.2 with
           | Some dish => total + d_price dish * ci_quantity item.2
           | None => total
           end)
        0 (get_cart_items d user_id).

(** Modelled from the spec: [CartService.remove_from_cart], which
    [app/user_dashboard.py] calls from [app.services], is not part of the
    sources ([services_fixed.py] has no such method).  The specification:
    "remove(user, cart_item): deletes the row; idempotent-by-id (removing
    a nonexistent id is a no-op failure, not a crash)"; cart rows are
    written only by their owner's requests. *)
Definition remove_from_cart (d : db) (user_id : Z) (cart_item_id : Z)
    : db * bool :=
  match cart_items d !! cart_item_id with
  | Some item =>
      if decide (ci_user_id item = user_id)
      then (set_cart_items (delete cart_item_id) d, true)
      else (d, false)
  | None => (d, false)
  end.

(** Modelled from the spec: [CartService.update_cart_item], called by
    [app/user_dashboard.py], is not part of the sources either.  The
    specification: "update(user, cart_item, new_quantity): replaces
    quantity; same stock-ceiling validation applies; quantity must stay
    ≥ 1". *)
Definition update_cart_item (d : db) (user_id : Z) (cart_item_id : Z)
    (update_data : CartItemUpdate) : db * option (Z * CartItem) :=
  match cart_items d !! cart_item_id with
  | Some item =>
      if decide (ci_user_id item = user_id) then
        match dishes d !! ci_dish_id item with
        | Some dish =>
            if negb (d_is_available dish)
               || bool_decide (cu_quantity update_data < 1)
               || bool_decide (d_stock_quantity dish < cu_quantity update_data)
            then (d, None)
            else
              let item' := with_quantity item (cu_quantity update_data) in
              (set_cart_items (insert cart_item_id item') d,
               Some (cart_item_id, item'))
        | None => (d, None)
        end
      else (d, None)
  | None => (d, None)
  end.

(** *** OrderService *)

(** One entry of [order_items_data]. *)
Record item_data := mkItemData {
  dish_id : Z;
  quantity : Z;
  unit_price : Z;
  subtotal : Z }.

(** The first loop of [create_order_from_cart]: every cart line is checked
    against the dish as it is now, and priced.  The dish was fetched by
    [cart_item.dish_id], which is therefore its [id]. *)
Fixpoint validate_lines (ds : gmap Z Dish) (cart : list (Z * CartItem))
    (total_amount : Z) (order_items_data : list item_data)
    : option (Z * list item_data) :=
  match cart with
  | [] => Some (total_amount, order_items_data)
  | cart_item :: rest =>
      match ds !! ci_dish_id cart_item.2 with
      | None => None
      | Some dish =>
          if negb (d_is_available dish) then None
          else if bool_decide (d_stock_quantity dish < ci_quantity cart_item.2)
          then None
          else
            let subtotal := d_price dish * ci_quantity cart_item.2 in
            validate_lines ds rest (total_amount + subtotal)
              (order_items_data ++
                 [ {| dish_id := ci_dish_id cart_item.2;
                      quantity := ci_quantity cart_item.2;
                      unit_price := d_price dish;
                      subtotal := subtotal |} ])
      end
  end.

Definition decrement (dish : Dish) (q : Z) : Dish :=
  {| d_name := d_name dish;
     d_price := d_price dish;
     d_description := d_description dish;
     d_image_url := d_image_url dish;
     d_category := d_category dish;
     d_stock_quantity := d_stock_quantity dish - q;
     d_is_available := d_is_available dish |}.

Definition order_item_of (order_id : Z) (item : item_data) : OrderItem :=
  {| oi_order_id := order_id;
     oi_dish_id := dish_id item;
     oi_quantity := quantity item;
     oi_unit_price := unit_price item;
     oi_subtotal := subtotal item |}.

(** The body of the second loop: the order item is added, and the stock of
    its dish is taken down in the session. *)
Definition place_line (order_id : Z) (w : db) (item : item_data) : db :=
  let w := set_order_items
             (λ t, <[next_id t := order_item_of order_id item]> t) w in
  if decide (dish_id item ≠ 0) then
    match dishes w !! dish_id item with
    | Some dish =>
        set_dishes (insert (dish_id item) (decrement dish (quantity item))) w
    | None => w
    end
  else w.

(** What the second loop does to the two tables it writes. *)
Definition take_stock (ds : gmap Z Dish) (item : item_data) : gmap Z Dish :=
  if decide (dish_id item ≠ 0) then
    match ds !! dish_id item with
    | Some dish => <[dish_id item := decrement dish (quantity item)]> ds
    | None => ds
    end
  else ds.

Definition add_item (order_id : Z) (t : gmap Z OrderItem) (item : item_data)
    : gmap Z OrderItem :=
  <[next_id t := order_item_of order_id item]> t.

(** The entry of [order_items_data] a cart line gives, priced on [dish]. *)
Definition item_of (line : Z * CartItem) (dish : Dish) : item_data :=
  {| dish_id := ci_dish_id line.2;
     quantity := ci_quantity line.2;
     unit_price := d_price dish;
     subtotal := d_price dish * ci_quantity line.2 |}.

Definition create_order_from_cart_on (s : storage) (d : db) (user_id : Z)
    (order_data : OrderCreate) : db * outcome (option (Z * Order)) :=
  let cart := get_cart_items d user_id in
  match cart with
  | [] => (d, Returned None)
  | _ :: _ =>
      match validate_lines (dishes d) cart 0 [] with
      | None => (d, Returned None)
      | Some (total_amount, order_items_data) =>
          let order :=
            {| o_user_id := user_id;
               o_pickup_time := oc_pickup_time order_data;
               o_delivery_type := oc_delivery_type order_data;
               o_status := PENDING;
               o_total_amount := total_amount;
               o_remarks := default EmptyString (oc_remarks order_data) |} in
          let order_id := next_id (orders d) in
          if commit_ok s 0 then
            let d1 := set_orders (insert order_id order) d in
            if decide (order_id ≠ 0) then
              let w := foldl (place_line order_id) d1 order_items_data in
              let w := set_cart_items (delete_all cart) w in
              if commit_ok s 1
              then (w, Returned (Some (order_id, order)))
              else (d1, Raised)
            else (d1, Returned (Some (order_id, order)))
          else (d, Raised)
      end
  end.

(** The order row [create_order_from_cart] builds, and the database once
    both of its commits are through. *)
Definition new_order (user_id : Z) (order_data : OrderCreate) (total_amount : Z)
    : Order :=
  {| o_user_id := user_id;
     o_pickup_time := oc_pickup_time order_data;
     o_delivery_type := oc_delivery_type order_data;
     o_status := PENDING;
     o_total_amount := total_amount;
     o_remarks := default EmptyString (oc_remarks order_data) |}.

Definition placed (d : db) (user_id order_id : Z) (order : Order)
    (data : list item_data) : db :=
  mkDb (users d)
       (foldl take_stock (dishes d) data)
       (delete_all (get_cart_items d user_id) (cart_items d))
       (<[order_id := order]> (orders d))
       (foldl (add_item order_id) (order_items d) data).

Definition create_order_from_cart : db → Z → OrderCreate →
    db * outcome (option (Z * Order)) :=
  create_order_from_cart_on Healthy.

Definition with_status (order : Order) (status : OrderStatus) : Order :=
  {| o_user_id := o_user_id order;
     o_pickup_time := o_pickup_time order;
     o_delivery_type := o_delivery_type order;
     o_status := status;
     o_total_amount := o_total_amount order;
     o_remarks := o_remarks order |}.

Definition update_order_status (d : db) (order_id : Z) (status : OrderStatus)
    : db * option (Z * Order) :=
  match orders d !! order_id with
  | None => (d, None)
  | Some order =>
      let order' := with_status order status in
      (set_orders (insert order_id order') d, Some (order_id, order'))
  end.

Definition get_order_items (d : db) (order_id : Z) : list (Z * OrderItem) :=
  select (λ r, oi_order_id r.2 = order_id) (order_items d).

(** ** Histories of service calls *)

Inductive op :=
  | Register (user_data : UserCreate)
  | CreateDish (dish_data : DishCreate)
  | UpdateDish (dish_id : Z) (dish_data : DishUpdate)
  | DeleteDish (dish_id : Z)
  | AddToCart (user_id : Z) (cart_data : CartItemCreate)
  | UpdateCartItem (user_id cart_item_id : Z) (update_data : CartItemUpdate)
  | RemoveFromCart (user_id cart_item_id : Z)
  | ClearCart (user_id : Z)
  | PlaceOrder (s : storage) (user_id : Z) (order_data : OrderCreate)
  | UpdateOrderStatus (order_id : Z) (status : OrderStatus).

Definition valid_op (o : op) : Prop :=
  match o with
  | CreateDish c => DishCreate_valid c
  | UpdateDish _ u => DishUpdate_valid u
  | AddToCart _ c => CartItemCreate_valid c
  | UpdateCartItem _ _ c => CartItemUpdate_valid c
  | _ => True
  end.

Definition exec (d : db) (o : op) : db :=
  match o with
  | Register u => (register_user d u).1
  | CreateDish c => (create_dish d c).1
  | UpdateDish i u => (update_dish d i u).1
  | DeleteDish i => (delete_dish d i).1
  | AddToCart u c => (add_to_cart d u c).1
  | UpdateCartItem u i c => (update_cart_item d u i c).1
  | RemoveFromCart u i => (remove_from_cart d u i).1
  | ClearCart u => (clear_cart d u).1
  | PlaceOrder s u o => (create_order_from_cart_on s d u o).1
  | UpdateOrderStatus i s => (update_order_status d i s).1
  end.

Definition run (ops : list op) : db := foldl exec empty_db ops.

(** The states the services can bring an empty database to, every call
    taking arguments its schema accepts. *)
Definition reachable (d : db) : Prop :=
  ∃ ops, Forall valid_op ops ∧ run ops = d.

(** [Register user_data] was called in the history [ops], and returned
    the user [user]. *)
Definition registered (ops : list op) (user_data : UserCreate)
    (user : Z * User) : Prop :=
  ∃ before after,
    ops = before ++ Register user_data :: after ∧
    (register_user (run before) user_data).2 = Some user.

(** ** Consistency of a database *)

(** No dish has a negative stock. *)
Definition stock_nonneg (d : db) : Prop :=
  map_Forall (λ _ dish, 0 ≤ d_stock_quantity dish) (dishes d).

(** The keys of the dishes are positive. *)
Definition dish_keys_pos (d : db) : Prop :=
  map_Forall (λ (i : Z) (_ : Dish), 0 < i) (dishes d).

(** A cart line holds at least one unit. *)
Definition cart_quantities_pos (d : db) : Prop :=
  map_Forall (λ _ item, 1 ≤ ci_quantity item) (cart_items d).

(** No two cart rows have the same user and the same dish. *)
Definition cart_unique (d : db) : Prop :=
  map_Forall (λ i r,
    map_Forall (λ j s,
      ci_user_id r = ci_user_id s → ci_dish_id r = ci_dish_id s → i = j)
      (cart_items d))
    (cart_items d).

(** No two users have the same email. *)
Definition users_unique (d : db) : Prop :=
  map_Forall (λ i a,
    map_Forall (λ j b, u_email a = u_email b → i = j) (users d))
    (users d).

(** Every order item belongs to an order of the table. *)
Definition order_items_owned (d : db) : Prop :=
  map_Forall (λ _ item, is_Some (orders d !! oi_order_id item)) (order_items d).

Record db_invariant (d : db) : Prop := mkInvariant {
  inv_stock : stock_nonneg d;
  inv_dish_keys : dish_keys_pos d;
  inv_quantities : cart_quantities_pos d;
  inv_unique : cart_unique d;
  inv_owned : order_items_owned d }.

(** The statement of atomicity for order placement: whatever the storage
    does, the database afterwards is the one before the call or the one a
    call without fault produces. *)
Definition all_or_nothing (s : storage) (d : db) (user_id : Z)
    (order_data : OrderCreate) : Prop :=
  (create_order_from_cart_on s d user_id order_data).1 = d ∨
  (create_order_from_cart_on s d user_id order_data).1 =
    (create_order_from_cart d user_id order_data).1.

(** The cart line of [user_id] for [dish], if there is one. *)
Definition cart_line (d : db) (user_id dish : Z) (i : Z) (r : CartItem) : Prop :=
  cart_items d !! i = Some r ∧ ci_user_id r = user_id ∧ ci_dish_id r = dish.

(** The order item a cart line becomes, priced on the dishes [ds]. *)
Definition line_item (ds : gmap Z Dish) (order_id : Z) (line : Z * CartItem)
    : option OrderItem :=
  dish ← ds !! ci_dish_id line.2;
  Some {| oi_order_id := order_id;
          oi_dish_id := ci_dish_id line.2;
          oi_quantity := ci_quantity line.2;
          oi_unit_price := d_price dish;
          oi_subtotal := d_price dish * ci_quantity line.2 |}.

(** A cart line that order placement accepts. *)
Definition line_ok (ds : gmap Z Dish) (line : Z * CartItem) : Prop :=
  ∃ dish, ds !! ci_dish_id line.2 = Some dish ∧
          d_is_available dish = true ∧
          ci_quantity line.2 ≤ d_stock_quantity dish.

Definition sum_list_Z (l : list Z) : Z := foldr Z.add 0 l.

(** [item] is [line] priced on the dishes [ds], which accept it. *)
Definition priced (ds : gmap Z Dish) (line : Z * CartItem) (item : item_data)
    : Prop :=
  ∃ dish, ds !! ci_dish_id line.2 = Some dish ∧
          d_is_available dish = true ∧
          ci_quantity line.2 ≤ d_stock_quantity dish ∧
          item = item_of line dish.

End Services.

(** ** A small shop

    One user, one dish ("Pizza", 15.99, ten in stock) and two of it in the
    user's cart: the end-to-end example of the specification, just before
    checkout. *)

(** A stand-in for the hash, which keeps different passwords apart. *)
Definition tag_hash (password : string) : string := "#" +:+ password.

Definition shop_user : UserCreate :=
  mkUserCreate "U" "u@example.com" "password123" "555-0100" None.

Definition shop_pizza : DishCreate :=
  mkDishCreate "Pizza" 1599 "" None "Pizza" 10.

Definition shop_history : list op :=
  [ Register shop_user;
    CreateDish shop_pizza;
    AddToCart 1 (mkCartItemCreate 1 2) ].

Definition shop_db : db :=
  {| users := {[ 1 := mkUser "U" "u@example.com" "#password123" "555-0100"
                         REGULAR None true ]};
     dishes := {[ 1 := mkDish "Pizza" 1599 "" None "Pizza" 10 true ]};
     cart_items := {[ 1 := mkCartItem 1 1 2 ]};
     orders := ∅;
     order_items := ∅ |}.

Definition shop_order : OrderCreate := mkOrderCreate 0 PICKUP None.

(** The same shop with three pizzas in the cart, and with a cart that asks
    for more than the stock. *)
Definition shop_db_three : db := set_cart_items (λ _, {[ 1 := mkCartItem 1 1 3 ]}) shop_db.
Definition shop_db_short : db := set_cart_items (λ _, {[ 1 := mkCartItem 1 1 11 ]}) shop_db.

(** ** The rest of the service layer *)

(** *** DishService and OrderService: the queries *)

Definition get_available_dishes (d : db) : list (Z * Dish) :=
  select (λ r, d_is_available r.2 = true) (dishes d).

Definition get_all_dishes (d : db) : list (Z * Dish) := map_to_list (dishes d).

Definition get_user_orders (d : db) (user_id : Z) : list (Z * Order) :=
  select (λ r, o_user_id r.2 = user_id) (orders d).

Definition get_all_orders (d : db) : list (Z * Order) := map_to_list (orders d).

Definition get_order_by_id (d : db) (order_id : Z) : option (Z * Order) :=
  (λ o, (order_id, o)) <$> orders d !! order_id.

(** *** DepartmentService

    The department service reads and writes the table of departments and
    no other, so it is modelled on that table alone. *)

Record Department := mkDepartment {
  dp_name : string;
  dp_description : option string;
  dp_is_active : bool }.

Record DepartmentCreate := mkDepartmentCreate {
  dpc_name : string;
  dpc_description : option string }.

Record DepartmentUpdate := mkDepartmentUpdate {
  dpu_name : upd string;
  dpu_description : upd string;
  dpu_is_active : upd bool }.

Definition get_all_departments (t : gmap Z Department) : list (Z * Department) :=
  select (λ r, dp_is_active r.2 = true) t.

(** The row [create_department] adds.  A description given as [None]
    is not written by the [INSERT], and the column takes its default,
    the empty string of [Field(default="")]. *)
Definition new_department (dept_data : DepartmentCreate) : Department :=
  {| dp_name := dpc_name dept_data;
     dp_description := Some (default EmptyString (dpc_description dept_data));
     dp_is_active := true |}.

Definition create_department (t : gmap Z Department)
    (dept_data : DepartmentCreate)
    : gmap Z Department * option (Z * Department) :=
  match head (select (λ r, dp_name r.2 = dpc_name dept_data) t) with
  | Some _ => (t, None)
  | None =>
      let department := new_department dept_data in
      let id := next_id t in
      (<[id := department]> t, Some (id, department))
  end.

Definition update_department_fields (department : Department)
    (dept_data : DepartmentUpdate) : option Department :=
  name ← assign (dpu_name dept_data) (dp_name department);
  is_active ← assign (dpu_is_active dept_data) (dp_is_active department);
  Some {| dp_name := name;
          dp_description :=
            assign_nullable (dpu_description dept_data)
              (dp_description department);
          dp_is_active := is_active |}.

(** Modelled from the spec: the storage enforces the unique constraint
    that [app/models.py] declares on [Department.name]; a commit that would
    leave two departments with one name raises and writes nothing. *)
Definition name_taken (t : gmap Z Department) (dept_id : Z) (name : string)
    : bool :=
  bool_decide (select (λ r, r.1 ≠ dept_id ∧ dp_name r.2 = name) t ≠ []).

Definition update_department (t : gmap Z Department) (dept_id : Z)
    (dept_data : DepartmentUpdate)
    : gmap Z Department * outcome (option (Z * Department)) :=
  match t !! dept_id with
  | None => (t, Returned None)
  | Some department =>
      match update_department_fields department dept_data with
      | Some department' =>
          if name_taken t dept_id (dp_name department')
          then (t, Raised)
          else (<[dept_id := department']> t,
                Returned (Some (dept_id, department')))
      | None => (t, Raised)
      end
  end.

Definition deactivate (department : Department) : Department :=
  {| dp_name := dp_name department;
     dp_description := dp_description department;
     dp_is_active := false |}.

Definition delete_department (t : gmap Z Department) (dept_id : Z)
    : gmap Z Department * bool :=
  match t !! dept_id with
  | None => (t, false)
  | Some department => (<[dept_id := deactivate department]> t, true)
  end.

Inductive dept_op :=
  | CreateDepartment (dept_data : DepartmentCreate)
  | UpdateDepartment (dept_id : Z) (dept_data : DepartmentUpdate)
  | DeleteDepartment (dept_id : Z).

Definition dept_exec (t : gmap Z Department) (o : dept_op) : gmap Z Department :=
  match o with
  | CreateDepartment c => (create_department t c).1
  | UpdateDepartment i u => (update_department t i u).1
  | DeleteDepartment i => (delete_department t i).1
  end.

Definition dept_run (ops : list dept_op) : gmap Z Department :=
  foldl dept_exec ∅ ops.

(** No two departments have the same name. *)
Definition dept_names_unique (t : gmap Z Department) : Prop :=
  map_Forall (λ i a, map_Forall (λ j b, dp_name a = dp_name b → i = j) t) t.

(** *** The forms of [app/admin_dashboard.py] that build update schemas

    A form hands the service an update in which every field of the form
    is assigned: the value typed when it differs from the one of the
    object the page holds, and [None] when it does not. *)

Definition changed {A} `{EqDecision A} (typed held : A) : upd A :=
  Assigned (if decide (typed ≠ held) then Some typed else None).

(** [update_dish] of the dish page, on the dish [dish] the page holds. *)
Definition edit_dish_data (dish : Dish) (name category : string) (price : Z)
    (description image_url : string) (stock : Z) : DishUpdate :=
  {| du_name := changed name (d_name dish);
     du_price := changed price (d_price dish);
     du_description := changed description (d_description dish);
     du_image_url := changed image_url (default EmptyString (d_image_url dish));
     du_category := changed category (d_category dish);
     du_stock_quantity := changed stock (d_stock_quantity dish);
     du_is_available := Unset |}.

#[global] Instance upd_ge_dec (lo : Z) (u : upd Z) : Decision (upd_ge lo u).
Proof. destruct u as [|[v|]]; simpl; apply _. Defined.

(** The schema is built first, which raises when it rejects the stock
    typed; the lengths of the strings typed are taken to be within the
    limits of the schema. *)
Definition edit_dish (d : db) (dish : Z * Dish) (name category : string)
    (price : Z) (description image_url : string) (stock : Z)
    : db * outcome (option (Z * Dish)) :=
  let dish_data :=
    edit_dish_data dish.2 name category price description image_url stock in
  if decide (upd_ge 0 (du_stock_quantity dish_data))
  then update_dish d dish.1 dish_data
  else (d, Raised).


(** [update_department] of the department page. *)
Definition edit_department (t : gmap Z Department) (dept : Z * Department)
    (name description : string)
    : gmap Z Department * outcome (option (Z * Department)) :=
  update_department t dept.1
    {| dpu_name := changed name (dp_name dept.2);
       dpu_description :=
         changed description (default EmptyString (dp_description dept.2));
       dpu_is_active := Unset |}.

(** ** More consistency *)

(** An order item holds at least one unit, and its subtotal is its unit
    price times its quantity. *)
Definition order_items_sound (d : db) : Prop :=
  map_Forall (λ _ item,
    1 ≤ oi_quantity item ∧
    oi_subtotal item = oi_unit_price item * oi_quantity item)
    (order_items d).

(** The total of every order is the sum of the subtotals of its items. *)
Definition orders_balanced (d : db) : Prop :=
  map_Forall (λ i order,
    sum_list_Z (oi_subtotal <$> (get_order_items d i).*2)
      = o_total_amount order)
    (orders d).

(** A call in which the storage does not fail. *)
Definition fault_free (o : op) : Prop :=
  match o with
  | PlaceOrder s _ _ => s = Healthy
  | _ => True
  end.

(** Every user registered through the service is a regular, active
    user. *)
Definition users_regular (d : db) : Prop :=
  map_Forall (λ _ user, u_role user = REGULAR ∧ u_is_active user = true)
    (users d).

(** The same order, whatever its status. *)
Definition same_receipt (o o' : Order) : Prop :=
  o_user_id o' = o_user_id o ∧
  o_pickup_time o' = o_pickup_time o ∧
  o_delivery_type o' = o_delivery_type o ∧
  o_total_amount o' = o_total_amount o ∧
  o_remarks o' = o_remarks o.

(** The units of [dish] in the cart of [user_id]. *)
Definition units_in_cart (d : db) (user_id dish : Z) : Z :=
  sum_list_Z
    (ci_quantity <$>
       filter (λ line, ci_dish_id line = dish) (get_cart_items d user_id).*2).

(** What a cart line adds to the total of the cart. *)
Definition line_amount (ds : gmap Z Dish) (line : Z * CartItem) : Z :=
  match ds !! ci_dish_id line.2 with
  | Some dish => d_price dish * ci_quantity line.2
  | None => 0
  end.

(** The update that changes the price of a dish and nothing else. *)
Definition price_update (price : Z) : DishUpdate :=
  {| du_name := Unset;
     du_price := Assigned (Some price);
     du_description := Unset;
     du_image_url := Unset;
     du_category := Unset;
     du_stock_quantity := Unset;
     du_is_available := Unset |}.

(** The shop at rush hour: one pizza left, and two users with one pizza
    each in their carts. *)
Definition rush_db : db :=
  {| users := ∅;
     dishes := {[ 1 := mkDish "Pizza" 1599 "" None "Pizza" 1 true ]};
     cart_items := {[ 1 := mkCartItem 1 1 1; 2 := mkCartItem 2 1 1 ]};
     orders := ∅;
     order_items := ∅ |}.

(** Two departments. *)
Definition office : gmap Z Department :=
  {[ 1 := mkDepartment "Engineering" (Some "Tech team") true;
     2 := mkDepartment "Kitchen" None true ]}.

(** How the office came to be: two departments created, a third refused
    for its name, and the description of the second cleared. *)
Definition office_history : list dept_op :=
  [ CreateDepartment (mkDepartmentCreate "Engineering" (Some "Tech team"));
    CreateDepartment (mkDepartmentCreate "Kitchen" None);
    CreateDepartment (mkDepartmentCreate "Engineering" None);
    UpdateDepartment 2 (mkDepartmentUpdate Unset (Assigned None) Unset) ].

(** A call of the department service that does not assign a name. *)
Definition keeps_name (o : dept_op) : Prop :=
  match o with
  | UpdateDepartment _ dept_data => dpu_name dept_data = Unset
  | _ => True
  end.

(** ** The limits of the storage

    The services above are written as if the storage took every row.  The
    storage the application runs on holds the columns as [app/models.py]
    declares them, and a commit that would break a declaration raises and
    writes nothing. *)

(** Modelled from the spec: a [Decimal] column with [max_digits=10] and
    [decimal_places=2] holds at most 99999999.99 either way, in
    hundredths. *)
Definition max_amount : Z := 9999999999.

Definition amount_fits (z : Z) : Prop := - max_amount ≤ z ≤ max_amount.

(** Modelled from the spec: an [int] column holds 32 bits. *)
Definition max_int : Z := 2147483647.

Definition int_fits (z : Z) : Prop := - max_int - 1 ≤ z ≤ max_int.

#[global] Instance amount_fits_dec (z : Z) : Decision (amount_fits z).
Proof. unfold amount_fits. apply _. Defined.

#[global] Instance int_fits_dec (z : Z) : Decision (int_fits z).
Proof. unfold int_fits. apply _. Defined.

(** Modelled from the spec: the commits of [create_order_from_cart] that
    the storage lets through.  The first commit writes the order row: its
    [user_id] is a foreign key to the users, and its [total_amount] a
    [Decimal] column.  The second writes the order items, whose [subtotal]
    is a [Decimal] column; their unit prices and quantities are values of
    the dish and cart rows read, and the stock left is between zero and
    the stock read. *)
Definition order_commits (d : db) (user_id : Z) : storage :=
  match validate_lines (dishes d) (get_cart_items d user_id) 0 [] with
  | Some (total_amount, order_items_data) =>
      if decide (is_Some (users d !! user_id) ∧ amount_fits total_amount) then
        if decide (Forall (λ item, amount_fits (subtotal item))
                     order_items_data)
        then Healthy
        else FaultAfter 1
      else FaultAfter 0
  | None => Healthy
  end.

(** [create_order_from_cart] on the storage with its limits. *)
Definition create_order_from_cart_stored (d : db) (user_id : Z)
    (order_data : OrderCreate) : db * outcome (option (Z * Order)) :=
  create_order_from_cart_on (order_commits d user_id) d user_id order_data.


(** Modelled from the spec: [create_dish] on the storage with its limits.
    The schema bounds the stock from below only, and [stock_quantity] is an
    [int] column; the price is a [Decimal] column, as it is a [Decimal]
    field of the schema. *)
Definition create_dish_stored (d : db) (dish_data : DishCreate)
    : db * outcome (Z * Dish) :=
  if decide (int_fits (dc_stock_quantity dish_data)
             ∧ amount_fits (dc_price dish_data))
  then ((create_dish d dish_data).1, Returned (create_dish d dish_data).2)
  else (d, Raised).


(** The shop with a dish at the highest price the column holds, 99999999.99,
    and two of it in the user's cart. *)
Definition grand_truffle : DishCreate :=
  mkDishCreate "Truffle" 9999999999 "" None "Pizza" 10.

Definition grand_history : list op :=
  [ Register shop_user;
    CreateDish grand_truffle;
    AddToCart 1 (mkCartItemCreate 1 2) ].

Definition grand_db : db :=
  {| users := {[ 1 := mkUser "U" "u@example.com" "#password123" "555-0100"
                         REGULAR None true ]};
     dishes := {[ 1 := mkDish "Truffle" 9999999999 "" None "Pizza" 10 true ]};
     cart_items := {[ 1 := mkCartItem 1 1 2 ]};
     orders := ∅;
     order_items := ∅ |}.

(** The consistency of a database given in full is settled by evaluation. *)
Ltac by_evaluation :=
  unfold cart_unique, cart_quantities_pos, dish_keys_pos, stock_nonneg,
    order_items_owned, users_unique;
  apply (bool_decide_unpack _); vm_compute; exact I.

(** ** Queries, keys and deletion *)

Section Storage.
Context {A : Type}.
Implicit Types (t : gmap Z A) (P : Z * A → Prop).

Lemma elem_of_select P `{!∀ x, Decision (P x)} t k r :
  (k, r) ∈ select P t ↔ t !! k = Some r ∧ P (k, r).
Proof.
  unfold select. rewrite list_elem_of_filter, elem_of_map_to_list. tauto.
Qed.

Lemma NoDup_select_keys P `{!∀ x, Decision (P x)} t :
  NoDup (select P t).*1.
Proof.
  unfold select. pose proof (NoDup_fst_map_to_list t) as Hnd.
  induction (map_to_list t) as [|x l IH]; [constructor|].
  apply NoDup_cons in Hnd as [Hx Hl]. rewrite filter_cons.
  destruct (decide (P x)); [|by apply IH].
  rewrite fmap_cons. apply NoDup_cons. split; [|by apply IH].
  intros Hin. apply Hx. apply list_elem_of_fmap in Hin as (y & -> & Hy).
  apply list_elem_of_filter in Hy as [_ Hy].
  apply list_elem_of_fmap. by exists y.
Qed.

Lemma head_select_Some P `{!∀ x, Decision (P x)} t x :
  head (select P t) = Some x → t !! x.1 = Some x.2 ∧ P x.
Proof.
  intros Hh. apply head_Some_elem_of in Hh. destruct x as [k r].
  by apply elem_of_select in Hh.
Qed.

Lemma head_select_None P `{!∀ x, Decision (P x)} t :
  head (select P t) = None ↔ ∀ k r, t !! k = Some r → ¬ P (k, r).
Proof.
  split.
  - intros Hh k r Hk HP. apply head_None in Hh.
    assert ((k, r) ∈ select P t) as Hin by by apply elem_of_select.
    rewrite Hh in Hin. by apply elem_of_nil in Hin.
  - intros Hn. destruct (head (select P t)) as [[k r]|] eqn:Hh; [|done].
    apply head_select_Some in Hh as [Hk HP]. by destruct (Hn k r).
Qed.

Lemma select_nil P `{!∀ x, Decision (P x)} t :
  select P t = [] ↔ ∀ k r, t !! k = Some r → ¬ P (k, r).
Proof. rewrite <- head_None. apply head_select_None. Qed.

Lemma max_key_ge t k r : t !! k = Some r → k ≤ max_key t.
Proof.
  intros Hk. apply elem_of_map_to_list in Hk. unfold max_key.
  induction (map_to_list t) as [|x l IH]; [by apply elem_of_nil in Hk|].
  rewrite fmap_cons. cbn [foldr].
  apply elem_of_cons in Hk as [<-|Hk]; [simpl; lia|].
  specialize (IH Hk). lia.
Qed.

Lemma max_key_nonneg t : 0 ≤ max_key t.
Proof.
  unfold max_key. induction (map_to_list t) as [|x l IH]; [done|].
  rewrite fmap_cons. cbn [foldr]. lia.
Qed.

Lemma next_id_fresh t : t !! next_id t = None.
Proof.
  destruct (t !! next_id t) as [r|] eqn:Hk; [|done].
  apply max_key_ge in Hk. unfold next_id in Hk. lia.
Qed.

Lemma next_id_pos t : 0 < next_id t.
Proof. unfold next_id. pose proof (max_key_nonneg t). lia. Qed.

Lemma lookup_delete_all (items : list (Z * A)) t k :
  delete_all items t !! k = if decide (k ∈ items.*1) then None else t !! k.
Proof.
  unfold delete_all. revert t.
  induction items as [|x l IH]; intros t; simpl.
  - destruct (decide (k ∈ [])) as [Hin|]; [by apply elem_of_nil in Hin|done].
  - rewrite IH. destruct (decide (k ∈ l.*1)) as [Hl|Hl].
    + rewrite decide_True; [done|]. by apply elem_of_cons; right.
    + destruct (decide (k = x.1)) as [->|Hne].
      * rewrite decide_True; [|by apply elem_of_cons; left].
        apply lookup_delete_eq.
      * rewrite decide_False.
        -- by apply lookup_delete_ne.
        -- intros [?|?]%elem_of_cons; done.
Qed.

Lemma lookup_delete_select P `{!∀ x, Decision (P x)} t k :
  delete_all (select P t) t !! k =
    match t !! k with
    | Some r => if decide (P (k, r)) then None else Some r
    | None => None
    end.
Proof.
  rewrite lookup_delete_all.
  destruct (t !! k) as [r|] eqn:Hk.
  - destruct (decide (P (k, r))) as [HP|HP].
    + rewrite decide_True; [done|]. apply list_elem_of_fmap.
      exists (k, r). split; [done|]. by apply elem_of_select.
    + rewrite decide_False; [done|].
      intros ([k' r'] & -> & Hin)%list_elem_of_fmap.
      apply elem_of_select in Hin as [Hk' HP']. simpl in *. congruence.
  - by destruct (decide _).
Qed.

End Storage.

(** ** The cart: clearing and removing *)

Lemma clear_cart_lookup d user_id k :
  cart_items (clear_cart d user_id).1 !! k =
    match cart_items d !! k with
    | Some r => if decide (ci_user_id r = user_id) then None else Some r
    | None => None
    end.
Proof.
  simpl. unfold get_cart_items.
  rewrite (lookup_delete_select (λ r, ci_user_id r.2 = user_id)).
  by destruct (cart_items d !! k).
Qed.

Lemma clear_cart_filter d user_id :
  cart_items (clear_cart d user_id).1 =
    filter (λ r, ci_user_id r.2 ≠ user_id) (cart_items d).
Proof.
  apply map_eq. intros k. rewrite clear_cart_lookup.
  destruct (cart_items d !! k) as [r|] eqn:Hk.
  - destruct (decide (ci_user_id r = user_id)) as [Hu|Hu].
    + symmetry. apply map_lookup_filter_None. right. intros r' Hr'.
      simpl. intros Hne. apply Hne. congruence.
    + symmetry. by apply map_lookup_filter_Some.
  - symmetry. apply map_lookup_filter_None. by left.
Qed.

Lemma clear_cart_empty d user_id :
  get_cart_items (clear_cart d user_id).1 user_id = [].
Proof.
  unfold get_cart_items. apply select_nil. intros k r Hk Hu.
  rewrite clear_cart_lookup in Hk.
  destruct (cart_items d !! k) as [r'|]; [|done].
  destruct (decide (ci_user_id r' = user_id)); [done|].
  simpl in Hu. congruence.
Qed.

(** C10. [clear_cart] always returns [True], also on an empty cart; the
    cart table afterwards is the one before without the rows of the user,
    every other row in place and every other table as it was; the user has
    no cart rows left; and clearing a second time changes nothing more. *)
Theorem clear_cart_idempotent (d : db) (user_id : Z) :
  (clear_cart d user_id).2 = true ∧
  get_cart_items (clear_cart d user_id).1 user_id = [] ∧
  clear_cart (clear_cart d user_id).1 user_id = clear_cart d user_id ∧
  cart_items (clear_cart d user_id).1 =
    filter (λ r, ci_user_id r.2 ≠ user_id) (cart_items d) ∧
  (clear_cart d user_id).1 =
    set_cart_items (λ _, cart_items (clear_cart d user_id).1) d.
Proof.
  split; [done|]. split; [apply clear_cart_empty|].
  split; [|split; [apply clear_cart_filter|done]].
  pose proof (clear_cart_empty d user_id) as He.
  unfold clear_cart at 1. rewrite He. reflexivity.
Qed.

(** C9. Removing a cart row of the user deletes that row and nothing
    else, and reports success; removing an id the user has no row under
    reports failure and leaves the database as it was. *)
Theorem remove_from_cart_by_id (d : db) (user_id cart_item_id : Z) :
  (∀ item, cart_items d !! cart_item_id = Some item →
           ci_user_id item = user_id →
           remove_from_cart d user_id cart_item_id =
             (set_cart_items (delete cart_item_id) d, true) ∧
           cart_items (remove_from_cart d user_id cart_item_id).1
             !! cart_item_id = None ∧
           ∀ k, k ≠ cart_item_id →
             cart_items (remove_from_cart d user_id cart_item_id).1 !! k =
               cart_items d !! k) ∧
  ((∀ item, cart_items d !! cart_item_id = Some item →
            ci_user_id item ≠ user_id) →
   remove_from_cart d user_id cart_item_id = (d, false)).
Proof.
  split.
  - intros item Hi Hu. unfold remove_from_cart. rewrite Hi.
    rewrite decide_True by done. simpl. split; [done|].
    split; [apply lookup_delete_eq|]. intros k Hk. by apply lookup_delete_ne.
  - intros Hn. unfold remove_from_cart.
    destruct (cart_items d !! cart_item_id) as [item|] eqn:Hi; [|done].
    rewrite decide_False; [done|]. by apply Hn.
Qed.

(** ** The cart: adding *)

Lemma cart_unique_lookup d i j r s :
  cart_unique d →
  cart_items d !! i = Some r → cart_items d !! j = Some s →
  ci_user_id r = ci_user_id s → ci_dish_id r = ci_dish_id s → i = j.
Proof. intros Hu Hi Hj. exact (Hu i r Hi j s Hj). Qed.

Lemma existing_item_line d user_id dish x :
  head (select (λ r, ci_user_id r.2 = user_id ∧ ci_dish_id r.2 = dish)
          (cart_items d)) = Some x →
  cart_line d user_id dish x.1 x.2.
Proof.
  intros Hh.
  apply (head_select_Some (λ r, ci_user_id r.2 = user_id ∧ ci_dish_id r.2 = dish))
    in Hh as [Hx [Hu Hd]].
  by repeat split.
Qed.

Lemma existing_item_found d user_id dish i r :
  cart_unique d → cart_line d user_id dish i r →
  head (select (λ r, ci_user_id r.2 = user_id ∧ ci_dish_id r.2 = dish)
          (cart_items d)) = Some (i, r).
Proof.
  intros Hun (Hi & Hu & Hd).
  destruct (head _) as [[j s]|] eqn:Hh.
  - apply existing_item_line in Hh as (Hj & Hu' & Hd'). simpl in *.
    assert (i = j) as <-.
    { eapply cart_unique_lookup; eauto; congruence. }
    congruence.
  - exfalso.
    eapply (head_select_None
              (λ r, ci_user_id r.2 = user_id ∧ ci_dish_id r.2 = dish)); eauto.
Qed.

Lemma existing_item_none d user_id dish :
  head (select (λ r, ci_user_id r.2 = user_id ∧ ci_dish_id r.2 = dish)
          (cart_items d)) = None ↔
  ∀ i r, ¬ cart_line d user_id dish i r.
Proof.
  rewrite head_select_None. unfold cart_line. simpl. split.
  - intros Hn i r (Hi & Hu & Hd). by apply (Hn i r).
  - intros Hn i r Hi [Hu Hd]. by apply (Hn i r).
Qed.

(** What [add_to_cart] does when the user already has a line for the
    dish. *)
Lemma add_to_cart_existing d user_id cart_data i r :
  cart_unique d → cart_line d user_id (cc_dish_id cart_data) i r →
  add_to_cart d user_id cart_data =
    match dishes d !! cc_dish_id cart_data with
    | None => (d, None)
    | Some dish =>
        if negb (d_is_available dish)
           || bool_decide (d_stock_quantity dish < cc_quantity cart_data)
           || bool_decide (ci_quantity r + cc_quantity cart_data
                             > d_stock_quantity dish)
        then (d, None)
        else
          let item := with_quantity r (ci_quantity r + cc_quantity cart_data) in
          (set_cart_items (insert i item) d, Some (i, item))
    end.
Proof.
  intros Hun Hl. unfold add_to_cart.
  destruct (dishes d !! cc_dish_id cart_data) as [dish|]; [|done].
  rewrite (existing_item_found _ _ _ _ _ Hun Hl). simpl.
  destruct (negb (d_is_available dish)
            || bool_decide (d_stock_quantity dish < cc_quantity cart_data));
    [done|].
  simpl. by destruct (bool_decide _).
Qed.

(** What [add_to_cart] does when the user has no line for the dish. *)
Lemma add_to_cart_fresh d user_id cart_data :
  (∀ i r, ¬ cart_line d user_id (cc_dish_id cart_data) i r) →
  add_to_cart d user_id cart_data =
    match dishes d !! cc_dish_id cart_data with
    | None => (d, None)
    | Some dish =>
        if negb (d_is_available dish)
           || bool_decide (d_stock_quantity dish < cc_quantity cart_data)
        then (d, None)
        else
          let item := mkCartItem user_id (cc_dish_id cart_data)
                        (cc_quantity cart_data) in
          (set_cart_items (insert (next_id (cart_items d)) item) d,
           Some (next_id (cart_items d), item))
    end.
Proof.
  intros Hn. unfold add_to_cart.
  destruct (dishes d !! cc_dish_id cart_data) as [dish|]; [|done].
  apply existing_item_none in Hn. by rewrite Hn.
Qed.

Lemma cart_line_dec d user_id dish :
  (∃ i r, cart_line d user_id dish i r) ∨ (∀ i r, ¬ cart_line d user_id dish i r).
Proof.
  destruct (head (select (λ r, ci_user_id r.2 = user_id ∧ ci_dish_id r.2 = dish)
                    (cart_items d))) as [x|] eqn:Hh.
  - left. exists x.1, x.2. by apply existing_item_line.
  - right. by apply existing_item_none.
Qed.



(** ** Order placement: the two loops *)

(** The validation loop accepts a cart exactly when every line is
    acceptable, and then prices the lines in order. *)
Lemma validate_lines_Some ds cart total acc total' acc' :
  validate_lines ds cart total acc = Some (total', acc') →
  ∃ data,
    acc' = acc ++ data ∧
    total' = total + sum_list_Z (subtotal <$> data) ∧
    Forall2 (priced ds) cart data.
Proof.
  revert total acc. induction cart as [|line rest IH]; intros total acc Hv.
  - simpl in Hv. injection Hv as <- <-. exists []. simpl.
    split; [by rewrite app_nil_r|]. split; [lia|constructor].
  - simpl in Hv.
    destruct (ds !! ci_dish_id line.2) as [dish|] eqn:Hd; [|done].
    destruct (d_is_available dish) eqn:Ha; [|done]. simpl in Hv.
    case_bool_decide as Hs; [done|].
    apply IH in Hv as (data & -> & -> & Hall).
    exists (item_of line dish :: data). split; [by rewrite <- app_assoc|].
    split.
    { unfold sum_list_Z. rewrite fmap_cons. cbn [foldr item_of subtotal]. lia. }
    constructor; [|done].
    exists dish. split; [done|]. split; [done|]. split; [lia|done].
Qed.

Lemma validate_lines_None ds cart total acc :
  validate_lines ds cart total acc = None → ¬ Forall (line_ok ds) cart.
Proof.
  revert total acc. induction cart as [|line rest IH]; intros total acc Hv Hall.
  - done.
  - apply Forall_cons in Hall as [(dish & Hd & Ha & Hs) Hall].
    simpl in Hv. rewrite Hd, Ha in Hv. simpl in Hv.
    rewrite bool_decide_false in Hv by lia. by eapply IH.
Qed.

Lemma validate_lines_None_inv ds cart total acc r :
  validate_lines ds cart total acc = Some r → Forall (line_ok ds) cart.
Proof.
  destruct r as [total' acc']. intros Hv.
  apply validate_lines_Some in Hv as (data & _ & _ & Hall).
  induction Hall as [|line item lines items Hl Hall IH]; constructor; [|done].
  destruct Hl as (dish & ? & ? & ? & _). by exists dish.
Qed.

Lemma validate_lines_ok ds cart total acc :
  Forall (line_ok ds) cart →
  is_Some (validate_lines ds cart total acc).
Proof.
  intros Hall. destruct (validate_lines ds cart total acc) eqn:Hv; [by eexists|].
  by apply validate_lines_None in Hv.
Qed.

Lemma place_lines_tables order_id w data :
  foldl (place_line order_id) w data =
    mkDb (users w) (foldl take_stock (dishes w) data) (cart_items w)
         (orders w) (foldl (add_item order_id) (order_items w) data).
Proof.
  revert w. induction data as [|item data IH]; intros w.
  - by destruct w.
  - simpl. rewrite IH. unfold place_line, take_stock, add_item. simpl.
    destruct (decide (dish_id item ≠ 0)); [|done].
    by destruct (dishes w !! dish_id item).
Qed.

(** The second loop leaves alone the dishes no line names. *)
Lemma take_stock_other ds data k :
  k ∉ dish_id <$> data → foldl take_stock ds data !! k = ds !! k.
Proof.
  revert ds. induction data as [|item data IH]; intros ds Hk; [done|].
  rewrite fmap_cons in Hk. apply not_elem_of_cons in Hk as [Hne Hk].
  simpl. rewrite IH by done. unfold take_stock.
  destruct (decide (dish_id item ≠ 0)); [|done].
  destruct (ds !! dish_id item); [|done]. by rewrite lookup_insert_ne.
Qed.

(** A dish named by one line only loses the quantity of that line. *)
Lemma take_stock_line ds data item :
  NoDup (dish_id <$> data) → item ∈ data → dish_id item ≠ 0 →
  foldl take_stock ds data !! dish_id item =
    (λ dish, decrement dish (quantity item)) <$> ds !! dish_id item.
Proof.
  revert ds. induction data as [|item' data IH]; intros ds Hnd Hin Hnz.
  - by apply elem_of_nil in Hin.
  - rewrite fmap_cons in Hnd. apply NoDup_cons in Hnd as [Hfresh Hnd].
    apply elem_of_cons in Hin as [<-|Hin].
    + simpl. rewrite take_stock_other by done. unfold take_stock.
      rewrite decide_True by done.
      destruct (ds !! dish_id item) as [dish|] eqn:Hd; [|by rewrite Hd].
      by rewrite lookup_insert_eq.
    + simpl. rewrite IH by done. f_equal.
      assert (dish_id item' ≠ dish_id item) as Hne.
      { intros Heq. apply Hfresh. rewrite Heq. by apply list_elem_of_fmap_2. }
      unfold take_stock. destruct (decide (dish_id item' ≠ 0)); [|done].
      destruct (ds !! dish_id item'); [|done]. by rewrite lookup_insert_ne.
Qed.

Lemma take_stock_keys ds data k :
  is_Some (foldl take_stock ds data !! k) ↔ is_Some (ds !! k).
Proof.
  revert ds. induction data as [|item data IH]; intros ds; [done|].
  simpl. rewrite IH. unfold take_stock.
  destruct (decide (dish_id item ≠ 0)); [|done].
  destruct (ds !! dish_id item) as [dish|] eqn:Hd; [|done].
  destruct (decide (dish_id item = k)) as [<-|Hne].
  - rewrite lookup_insert_eq, Hd. split; by eexists.
  - by rewrite lookup_insert_ne.
Qed.

(** The order items the second loop adds, next to those already there. *)
Lemma add_items_values order_id t data :
  (map_to_list (foldl (add_item order_id) t data)).*2 ≡ₚ
    (order_item_of order_id <$> data) ++ (map_to_list t).*2.
Proof.
  revert t. induction data as [|item data IH]; intros t; [done|].
  simpl. rewrite IH. unfold add_item.
  rewrite map_to_list_insert by apply next_id_fresh.
  rewrite fmap_cons. simpl. by rewrite Permutation_middle.
Qed.

Lemma add_items_Forall (P : OrderItem → Prop) order_id t data :
  map_Forall (λ _, P) t → Forall (λ item, P (order_item_of order_id item)) data →
  map_Forall (λ _, P) (foldl (add_item order_id) t data).
Proof.
  revert t. induction data as [|item data IH]; intros t Ht Hd; [done|].
  apply Forall_cons in Hd as [Hi Hd]. simpl. apply IH; [|done].
  unfold add_item. by apply map_Forall_insert_2.
Qed.

(** ** Order placement: the call *)

(** The ways a call of [create_order_from_cart] ends, on a storage that
    may fail. *)
Lemma create_order_cases s d user_id order_data :
  (create_order_from_cart_on s d user_id order_data = (d, Returned None) ∧
   (get_cart_items d user_id = [] ∨
    ¬ Forall (line_ok (dishes d)) (get_cart_items d user_id))) ∨
  (∃ total data,
     get_cart_items d user_id ≠ [] ∧
     validate_lines (dishes d) (get_cart_items d user_id) 0 [] =
       Some (total, data) ∧
     create_order_from_cart_on s d user_id order_data =
       let order := new_order user_id order_data total in
       let order_id := next_id (orders d) in
       if commit_ok s 0 then
         if commit_ok s 1
         then (placed d user_id order_id order data,
               Returned (Some (order_id, order)))
         else (set_orders (insert order_id order) d, Raised)
       else (d, Raised)).
Proof.
  unfold create_order_from_cart_on.
  destruct (get_cart_items d user_id) as [|line lines] eqn:Hc.
  { left. split; [done|by left]. }
  destruct (validate_lines (dishes d) (line :: lines) 0 []) as [[total data]|]
    eqn:Hv.
  - right. exists total, data. split; [done|]. split; [done|].
    cbv zeta. destruct (commit_ok s 0); [|done].
    rewrite decide_True by (pose proof (next_id_pos (orders d)); lia).
    destruct (commit_ok s 1); [|done].
    rewrite place_lines_tables. unfold placed. simpl. by rewrite Hc.
  - left. split; [done|]. right. by eapply validate_lines_None.
Qed.

Lemma create_order_healthy d user_id order_data :
  (create_order_from_cart d user_id order_data = (d, Returned None) ∧
   (get_cart_items d user_id = [] ∨
    ¬ Forall (line_ok (dishes d)) (get_cart_items d user_id))) ∨
  (∃ total data,
     get_cart_items d user_id ≠ [] ∧
     validate_lines (dishes d) (get_cart_items d user_id) 0 [] =
       Some (total, data) ∧
     create_order_from_cart d user_id order_data =
       (placed d user_id (next_id (orders d))
          (new_order user_id order_data total) data,
        Returned (Some (next_id (orders d),
                        new_order user_id order_data total)))).
Proof. apply (create_order_cases Healthy). Qed.

(** C2. A call of [create_order_from_cart] that returns no order leaves
    the database exactly as it was: stocks, orders, order items and carts. *)
Theorem create_order_failure_unchanged (d d' : db) (user_id : Z)
    (order_data : OrderCreate) :
  create_order_from_cart d user_id order_data = (d', Returned None) →
  d' = d ∧
  (get_cart_items d user_id = [] ∨
   ¬ Forall (line_ok (dishes d)) (get_cart_items d user_id)).
Proof.
  intros Hr.
  destruct (create_order_healthy d user_id order_data)
    as [[Hf Hwhy]|(total & data & _ & _ & Hs)].
  - rewrite Hf in Hr. by injection Hr as <-.
  - rewrite Hs in Hr. discriminate.
Qed.

(** C1, as the code has it.  Order placement commits twice: the order row
    first, and then the order items, the stock decrements and the deletion
    of the cart lines together.  A cart that is rejected leaves the
    database as it was, whatever the storage does.  Otherwise a storage
    that fails at the first commit leaves the database as it was, one that
    fails at the second commit leaves it with the order row alone added,
    and one that lets both through leaves every effect applied; so the
    order items, the decrements and the cart deletion are visible all
    together or not at all. *)
Theorem create_order_two_commits (s : storage) (d : db) (user_id : Z)
    (order_data : OrderCreate) :
  match (create_order_from_cart d user_id order_data).2 with
  | Returned None =>
      create_order_from_cart_on s d user_id order_data = (d, Returned None)
  | Returned (Some (order_id, order)) =>
      create_order_from_cart_on s d user_id order_data =
        if commit_ok s 0 then
          if commit_ok s 1
          then create_order_from_cart d user_id order_data
          else (set_orders (insert order_id order) d, Raised)
        else (d, Raised)
  | Raised => False
  end.
Proof.
  destruct (create_order_cases s d user_id order_data)
    as [[Hf Hwhy]|(total & data & Hne & Hv & Hs)];
  destruct (create_order_healthy d user_id order_data)
    as [[Hf' Hwhy']|(total' & data' & Hne' & Hv' & Hh)].
  - by rewrite Hf, Hf'.
  - exfalso. destruct Hwhy as [Hc|Hc]; [done|].
    apply Hc. by eapply validate_lines_None_inv.
  - exfalso. destruct Hwhy' as [Hc|Hc]; [done|].
    apply Hc. by eapply validate_lines_None_inv.
  - rewrite Hv in Hv'. injection Hv' as <- <-. by rewrite Hs, Hh.
Qed.

(** ** Consistency is kept by every service *)

Lemma delete_all_subseteq {A} (items : list (Z * A)) (t : gmap Z A) :
  delete_all items t ⊆ t.
Proof.
  unfold delete_all. revert t. induction items as [|x l IH]; intros t; [done|].
  simpl. etrans; [apply IH|]. apply delete_subseteq.
Qed.

Lemma cart_quantities_pos_weaken d d' :
  cart_items d' ⊆ cart_items d → cart_quantities_pos d → cart_quantities_pos d'.
Proof.
  intros Hsub Hq i r Hi. apply (Hq i r). by eapply lookup_weaken.
Qed.

Lemma cart_unique_weaken d d' :
  cart_items d' ⊆ cart_items d → cart_unique d → cart_unique d'.
Proof.
  intros Hsub Hu i r Hi j s Hj.
  apply (Hu i r (lookup_weaken _ _ _ _ Hi Hsub) j s (lookup_weaken _ _ _ _ Hj Hsub)).
Qed.

(** Writing a line back under its key, for the same user and dish. *)
Lemma cart_unique_rewrite d i r r' :
  cart_unique d → cart_items d !! i = Some r →
  ci_user_id r' = ci_user_id r → ci_dish_id r' = ci_dish_id r →
  cart_unique (set_cart_items (insert i r') d).
Proof.
  intros Hun Hi Hu Hd j s Hj k t Hk Hu' Hd'. simpl in Hj, Hk.
  destruct (decide (i = j)) as [<-|Hij], (decide (i = k)) as [<-|Hik];
    simplify_map_eq; [done|..].
  - eapply cart_unique_lookup; eauto; congruence.
  - symmetry. eapply cart_unique_lookup; eauto; congruence.
  - eapply cart_unique_lookup; eauto.
Qed.

(** Adding a line for a dish the user has no line for. *)
Lemma cart_unique_fresh d i r :
  cart_unique d →
  (∀ j s, ¬ cart_line d (ci_user_id r) (ci_dish_id r) j s) →
  cart_unique (set_cart_items (insert i r) d).
Proof.
  intros Hun Hn j s Hj k t Hk Hu' Hd'. simpl in Hj, Hk.
  destruct (decide (i = j)) as [<-|Hij], (decide (i = k)) as [<-|Hik];
    simplify_map_eq; [done|..].
  - by destruct (Hn k t).
  - by destruct (Hn j s).
  - eapply cart_unique_lookup; eauto.
Qed.

Lemma order_items_owned_grow d d' :
  order_items d' = order_items d →
  (∀ k, is_Some (orders d !! k) → is_Some (orders d' !! k)) →
  order_items_owned d → order_items_owned d'.
Proof.
  intros Hi Ho Hown k item Hk. rewrite Hi in Hk. apply Ho. exact (Hown k item Hk).
Qed.

Lemma insert_keeps {A} (t : gmap Z A) i x k :
  is_Some (t !! k) → is_Some (<[i:=x]> t !! k).
Proof. intros Hk. rewrite lookup_insert_is_Some. destruct (decide (i = k)); auto. Qed.

(** The rows of one user's cart name pairwise different dishes. *)
Lemma cart_dishes_NoDup d user_id :
  cart_unique d →
  NoDup ((λ line, ci_dish_id line.2) <$> get_cart_items d user_id).
Proof.
  intros Hun. apply NoDup_fmap_2_strong.
  - intros [i r] [j s] Hi Hj Heq. simpl in Heq.
    apply elem_of_select in Hi as [Hi Hu], Hj as [Hj Hu']. simpl in *.
    assert (i = j) as <- by (eapply cart_unique_lookup; eauto; congruence).
    congruence.
  - unfold get_cart_items, select. apply NoDup_filter, NoDup_map_to_list.
Qed.

Lemma validated_dishes {ds lines data} :
  Forall2 (priced ds) lines data →
  dish_id <$> data = (λ line, ci_dish_id line.2) <$> lines.
Proof.
  induction 1 as [|line item lines data (dish & _ & _ & _ & ->) _ IH]; [done|].
  rewrite !fmap_cons. by rewrite IH.
Qed.

Lemma validated_item {ds lines data} item :
  Forall2 (priced ds) lines data →
  item ∈ data →
  ∃ line dish, line ∈ lines ∧ ds !! dish_id item = Some dish ∧
               d_is_available dish = true ∧
               quantity item ≤ d_stock_quantity dish ∧
               item = item_of line dish.
Proof.
  induction 1 as [|line item' lines data (dish & Hd & Ha & Hs & ->) _ IH];
    intros Hin.
  - by apply elem_of_nil in Hin.
  - apply elem_of_cons in Hin as [->|Hin].
    + exists line, dish. split; [by left|done].
    + destruct (IH Hin) as (line' & dish' & Hl & H'). exists line', dish'.
      split; [by right|done].
Qed.

Lemma validated_line {ds lines data} line :
  Forall2 (priced ds) lines data →
  line ∈ lines →
  ∃ dish, ds !! ci_dish_id line.2 = Some dish ∧
          d_is_available dish = true ∧
          ci_quantity line.2 ≤ d_stock_quantity dish ∧
          item_of line dish ∈ data.
Proof.
  induction 1 as [|line' item lines data (dish & Hd & Ha & Hs & ->) _ IH];
    intros Hin.
  - by apply elem_of_nil in Hin.
  - apply elem_of_cons in Hin as [->|Hin].
    + exists dish. repeat (split; [done|]). by left.
    + destruct (IH Hin) as (dish' & ? & ? & ? & ?). exists dish'.
      repeat (split; [done|]). by right.
Qed.

Lemma placed_invariant d user_id order total data :
  db_invariant d →
  validate_lines (dishes d) (get_cart_items d user_id) 0 [] = Some (total, data) →
  db_invariant (placed d user_id (next_id (orders d)) order data).
Proof.
  intros [Hst Hkeys Hq Hun Hown] Hv.
  apply validate_lines_Some in Hv as (data' & Hd' & _ & Hall).
  simpl in Hd'. subst data'.
  assert (NoDup (dish_id <$> data)) as Hnd.
  { rewrite (validated_dishes Hall). by apply cart_dishes_NoDup. }
  constructor.
  - intros k dish' Hk. unfold placed in Hk. simpl in Hk.
    destruct (decide (k ∈ dish_id <$> data)) as [Hin|Hout].
    + apply list_elem_of_fmap in Hin as (item & -> & Hin).
      destruct (validated_item item Hall Hin) as (line & dish & _ & Hd & _ & Hs & _).
      rewrite take_stock_line in Hk; [|done|done|].
      * rewrite Hd in Hk. injection Hk as <-. simpl. lia.
      * pose proof (Hkeys _ _ Hd). simpl in *. lia.
    + rewrite take_stock_other in Hk by done. exact (Hst k dish' Hk).
  - intros k dish' Hk. unfold placed in Hk. simpl in Hk.
    assert (is_Some (dishes d !! k)) as [dish Hd].
    { apply (take_stock_keys _ data). by eexists. }
    exact (Hkeys k dish Hd).
  - eapply cart_quantities_pos_weaken; [|done]. apply delete_all_subseteq.
  - eapply cart_unique_weaken; [|done]. apply delete_all_subseteq.
  - unfold order_items_owned, placed. simpl.
    apply (add_items_Forall
             (λ item, is_Some (<[next_id (orders d):=order]> (orders d)
                                 !! oi_order_id item))).
    + intros k item Hk. apply insert_keeps. exact (Hown k item Hk).
    + apply Forall_forall. intros item _. simpl. rewrite lookup_insert_eq.
      by eexists.
Qed.

Lemma update_fields_stock dish dish_data dish' :
  DishUpdate_valid dish_data → 0 ≤ d_stock_quantity dish →
  update_fields dish dish_data = Some dish' → 0 ≤ d_stock_quantity dish'.
Proof.
  unfold update_fields, DishUpdate_valid. intros Hv Hs Hu.
  destruct (assign (du_name dish_data) _); [|done].
  destruct (assign (du_price dish_data) _); [|done].
  destruct (assign (du_description dish_data) _); [|done].
  destruct (assign (du_category dish_data) _); [|done].
  destruct (du_stock_quantity dish_data) as [|[q|]]; simpl in *; [| |done].
  - destruct (assign (du_is_available dish_data) _); [|done].
    by injection Hu as <-.
  - destruct (assign (du_is_available dish_data) _); [|done].
    by injection Hu as <-.
Qed.

Section Invariant.
Variable hash_password : string → string.

Lemma exec_invariant d o :
  valid_op o → db_invariant d → db_invariant (exec hash_password d o).
Proof.
  intros Hvalid Hinv. pose proof Hinv as [Hst Hkeys Hq Hun Hown].
  destruct o as [user_data|dish_data|i dish_data|i|u cart_data|u i update_data
                 |u i|u|s u order_data|i status]; simpl in *.
  - (* register_user *)
    unfold register_user. by destruct (head _).
  - (* create_dish *)
    constructor; try done.
    + by apply map_Forall_insert_2.
    + apply map_Forall_insert_2; [exact (next_id_pos _)|done].
  - (* update_dish *)
    unfold update_dish. destruct (dishes d !! i) as [dish|] eqn:Hd; [|done].
    destruct (update_fields dish dish_data) as [dish'|] eqn:Hu; [|done].
    constructor; try done.
    + apply map_Forall_insert_2; [|done].
      eapply update_fields_stock; [done| |done]. exact (Hst i dish Hd).
    + apply map_Forall_insert_2; [|done]. exact (Hkeys i dish Hd).
  - (* delete_dish *)
    unfold delete_dish. destruct (dishes d !! i) as [dish|] eqn:Hd; [|done].
    constructor; try done.
    + apply map_Forall_insert_2; [|done]. exact (Hst i dish Hd).
    + apply map_Forall_insert_2; [|done]. exact (Hkeys i dish Hd).
  - (* add_to_cart *)
    unfold CartItemCreate_valid in Hvalid.
    destruct (cart_line_dec d u (cc_dish_id cart_data)) as [(j & r & Hl)|Hn].
    + rewrite (add_to_cart_existing _ _ _ _ _ Hun Hl).
      destruct (dishes d !! cc_dish_id cart_data) as [dish|]; [|done].
      destruct (_ || _); [done|]. destruct Hl as (Hj & _ & _).
      constructor; try done.
      * apply map_Forall_insert_2; [|done]. pose proof (Hq j r Hj). simpl in *. lia.
      * by eapply cart_unique_rewrite.
    + rewrite (add_to_cart_fresh _ _ _ Hn).
      destruct (dishes d !! cc_dish_id cart_data) as [dish|]; [|done].
      destruct (_ || _); [done|].
      constructor; try done.
      * by apply map_Forall_insert_2.
      * by apply cart_unique_fresh.
  - (* update_cart_item *)
    unfold update_cart_item, CartItemUpdate_valid in *.
    destruct (cart_items d !! i) as [item|] eqn:Hi; [|done].
    destruct (decide _); [|done].
    destruct (dishes d !! ci_dish_id item) as [dish|]; [|done].
    destruct (_ || _); [done|].
    constructor; try done.
    + by apply map_Forall_insert_2.
    + by eapply cart_unique_rewrite.
  - (* remove_from_cart *)
    unfold remove_from_cart. destruct (cart_items d !! i) as [item|]; [|done].
    destruct (decide _); [|done].
    constructor; try done.
    + by apply map_Forall_delete.
    + eapply cart_unique_weaken; [|done]. apply delete_subseteq.
  - (* clear_cart *)
    constructor; try done.
    + eapply cart_quantities_pos_weaken; [|done]. apply delete_all_subseteq.
    + eapply cart_unique_weaken; [|done]. apply delete_all_subseteq.
  - (* create_order_from_cart *)
    destruct (create_order_cases s d u order_data)
      as [[-> _]|(total & data & _ & Hv & ->)]; [done|].
    cbv zeta. destruct (commit_ok s 0); [|done].
    destruct (commit_ok s 1).
    + by eapply placed_invariant.
    + constructor; try done.
      apply (order_items_owned_grow d); [done| |done].
      intros k. apply insert_keeps.
  - (* update_order_status *)
    unfold update_order_status. destruct (orders d !! i) as [order|]; [|done].
    constructor; try done.
    apply (order_items_owned_grow d); [done| |done].
    intros k. apply insert_keeps.
Qed.

Lemma empty_invariant : db_invariant empty_db.
Proof. by constructor. Qed.

Lemma run_snoc ops o :
  run hash_password (ops ++ [o]) = exec hash_password (run hash_password ops) o.
Proof. unfold run. by rewrite foldl_app. Qed.

Lemma run_invariant ops :
  Forall valid_op ops → db_invariant (run hash_password ops).
Proof.
  induction ops as [|o ops IH] using rev_ind; intros Hv.
  - apply empty_invariant.
  - rewrite Forall_app, Forall_singleton in Hv. destruct Hv as [Hv Ho].
    rewrite run_snoc. apply exec_invariant; [done|by apply IH].
Qed.

Lemma reachable_invariant d : reachable hash_password d → db_invariant d.
Proof. intros (ops & Hv & <-). by apply run_invariant. Qed.

End Invariant.

(** ** Order placement: what a successful call leaves *)

Lemma filter_values {A} (P : Z * A → Prop) (Q : A → Prop)
    `{!∀ x, Decision (P x)} `{!∀ x, Decision (Q x)} (l : list (Z * A)) :
  (∀ r, P r ↔ Q r.2) → (filter P l).*2 = filter Q l.*2.
Proof.
  intros HPQ. induction l as [|x l IH]; [done|].
  rewrite fmap_cons, !filter_cons.
  destruct (decide (P x)) as [HP|HP], (decide (Q x.2)) as [HQ|HQ].
  - by rewrite fmap_cons, IH.
  - by apply HPQ in HP.
  - by apply HPQ in HQ.
  - done.
Qed.

Lemma filter_all {A} (P : A → Prop) `{!∀ x, Decision (P x)} (l : list A) :
  Forall P l → filter P l = l.
Proof.
  induction 1 as [|x l Hx _ IH]; [done|].
  by rewrite filter_cons_True, IH.
Qed.

Lemma filter_none {A} (P : A → Prop) `{!∀ x, Decision (P x)} (l : list A) :
  Forall (λ x, ¬ P x) l → filter P l = [].
Proof.
  induction 1 as [|x l Hx _ IH]; [done|].
  by rewrite filter_cons_False, IH.
Qed.

Lemma sum_list_Z_perm l k : l ≡ₚ k → sum_list_Z l = sum_list_Z k.
Proof.
  unfold sum_list_Z. induction 1; simpl; lia.
Qed.

(** The order items of the new order are the priced lines, and no other. *)
Lemma placed_order_items d user_id order_id order data :
  order_items_owned d → orders d !! order_id = None →
  (get_order_items (placed d user_id order_id order data) order_id).*2 ≡ₚ
    order_item_of order_id <$> data.
Proof.
  intros Hown Hfresh. unfold get_order_items, select, placed.
  cbn [order_items].
  rewrite (filter_values _ (λ item, oi_order_id item = order_id)) by done.
  rewrite add_items_values, filter_app.
  rewrite filter_all, filter_none; [by rewrite app_nil_r| |].
  - apply Forall_forall. intros item Hin Heq.
    apply list_elem_of_fmap in Hin as ([k item'] & -> & Hin).
    apply elem_of_map_to_list in Hin. simpl in Heq.
    destruct (Hown k item' Hin) as [o Ho]. congruence.
  - apply Forall_forall. intros item Hin.
    by apply list_elem_of_fmap in Hin as (item' & -> & _).
Qed.

Lemma get_cart_items_placed d user_id order_id order data :
  get_cart_items (placed d user_id order_id order data) user_id = [].
Proof. exact (clear_cart_empty d user_id). Qed.

Lemma priced_line_item ds order_id lines data :
  Forall2 (priced ds) lines data →
  Forall2 (λ line item, line_item ds order_id line = Some item)
    lines (order_item_of order_id <$> data).
Proof.
  induction 1 as [|line item lines data (dish & Hd & _ & _ & ->) _ IH].
  - constructor.
  - rewrite fmap_cons. constructor; [|done].
    unfold line_item. by rewrite Hd.
Qed.

Lemma cart_total_fold (ds : gmap Z Dish) lines data total :
  Forall2 (priced ds) lines data →
  foldl (λ total item,
           match ds !! ci_dish_id item.2 with
           | Some dish => total + d_price dish * ci_quantity item.2
           | None => total
           end) total lines
    = total + sum_list_Z (subtotal <$> data).
Proof.
  intros Hall. revert total.
  induction Hall as [|line item lines data (dish & Hd & _ & _ & ->) _ IH];
    intros total.
  - unfold sum_list_Z. simpl. lia.
  - cbn [foldl]. rewrite Hd, IH. unfold sum_list_Z. rewrite fmap_cons.
    cbn [foldr item_of subtotal]. lia.
Qed.

Lemma cart_total_priced d user_id data :
  Forall2 (priced (dishes d)) (get_cart_items d user_id) data →
  get_cart_total d user_id = sum_list_Z (subtotal <$> data).
Proof.
  intros Hall. unfold get_cart_total.
  rewrite (cart_total_fold _ _ data) by done. lia.
Qed.

Lemma priced_fit ds lines data :
  Forall2 (priced ds) lines data →
  Forall (λ line, amount_fits (line_amount ds line)) lines →
  Forall (λ item, amount_fits (subtotal item)) data.
Proof.
  induction 1 as [|line item lines data (dish & Hd & _ & _ & ->) _ IH];
    intros Hfit; [constructor|].
  apply Forall_cons in Hfit as [Hline Hfit]. constructor; [|by apply IH].
  unfold line_amount in Hline. by rewrite Hd in Hline.
Qed.

(** The storage takes both commits of the order of a user it knows, when
    the amounts fit their columns. *)
Lemma order_commits_healthy d user_id :
  is_Some (users d !! user_id) →
  amount_fits (get_cart_total d user_id) →
  Forall (λ line, amount_fits (line_amount (dishes d) line))
    (get_cart_items d user_id) →
  order_commits d user_id = Healthy.
Proof.
  intros Hu Ht Hl. unfold order_commits.
  destruct (validate_lines _ _ _ _) as [[total data]|] eqn:Hv; [|done].
  apply validate_lines_Some in Hv as (data' & Hd' & -> & Hall).
  simpl in Hd'. subst data'.
  rewrite decide_True.
  2: { split; [done|]. rewrite (cart_total_priced d user_id data Hall) in Ht.
       by rewrite Z.add_0_l. }
  rewrite decide_True; [done|]. by eapply priced_fit.
Qed.

(** C3, within the limits of the storage.  When the user is known, the
    cart is not empty, every line names a dish that exists, is available
    and has the stock for it, and the total of the cart and the amount of
    every line fit a [Decimal] column, placing the order succeeds: the
    order is a new row with status pending and the total of the cart, the
    user's cart is empty afterwards, the stock of the dish of every line
    is the stock it had less the quantity of that line, and the order has
    one order item per cart line, with the dish's price as unit price and
    price times quantity as subtotal. *)
Theorem create_order_success (d : db) (user_id : Z) (order_data : OrderCreate) :
  cart_unique d → dish_keys_pos d → order_items_owned d →
  is_Some (users d !! user_id) →
  get_cart_items d user_id ≠ [] →
  Forall (line_ok (dishes d)) (get_cart_items d user_id) →
  amount_fits (get_cart_total d user_id) →
  Forall (λ line, amount_fits (line_amount (dishes d) line))
    (get_cart_items d user_id) →
  ∃ d' order_id order items,
    create_order_from_cart_stored d user_id order_data =
      (d', Returned (Some (order_id, order))) ∧
    orders d !! order_id = None ∧
    orders d' !! order_id = Some order ∧
    o_status order = PENDING ∧
    o_user_id order = user_id ∧
    o_total_amount order = get_cart_total d user_id ∧
    get_cart_items d' user_id = [] ∧
    (∀ line, line ∈ get_cart_items d user_id →
       ∃ dish dish',
         dishes d !! ci_dish_id line.2 = Some dish ∧
         dishes d' !! ci_dish_id line.2 = Some dish' ∧
         d_stock_quantity dish' = d_stock_quantity dish - ci_quantity line.2 ∧
         d_price dish' = d_price dish ∧
         d_is_available dish' = d_is_available dish) ∧
    Forall2 (λ line item,
       ∃ dish, dishes d !! ci_dish_id line.2 = Some dish ∧
               oi_order_id item = order_id ∧
               oi_dish_id item = ci_dish_id line.2 ∧
               oi_quantity item = ci_quantity line.2 ∧
               oi_unit_price item = d_price dish ∧
               oi_subtotal item = d_price dish * ci_quantity line.2)
      (get_cart_items d user_id) items ∧
    (get_order_items d' order_id).*2 ≡ₚ items.
Proof.
  intros Hun Hkeys Hown Hu Hne Hok Ht Hl.
  unfold create_order_from_cart_stored.
  rewrite (order_commits_healthy d user_id Hu Ht Hl).
  destruct (create_order_cases Healthy d user_id order_data)
    as [[_ [Hc|Hc]]|(total & data & _ & Hv & Hs)]; [done..|].
  simpl in Hs.
  apply validate_lines_Some in Hv as (data' & Hd' & -> & Hall).
  simpl in Hd'. subst data'.
  eexists _, _, _, (order_item_of (next_id (orders d)) <$> data).
  split; [exact Hs|].
  split; [apply next_id_fresh|].
  split; [apply lookup_insert_eq|].
  split; [done|]. split; [done|].
  split; [simpl; by rewrite (cart_total_priced d user_id data Hall)|].
  split; [apply get_cart_items_placed|].
  split; [|split].
  - intros line Hin.
    destruct (validated_line line Hall Hin) as (dish & Hd & _ & _ & Hitem).
    exists dish, (decrement dish (ci_quantity line.2)).
    split; [done|]. split; [|done]. unfold placed. simpl.
    change (ci_dish_id line.2) with (dish_id (item_of line dish)).
    rewrite take_stock_line; [by simpl; rewrite Hd|..|done|].
    + rewrite (validated_dishes Hall). by apply cart_dishes_NoDup.
    + pose proof (Hkeys _ _ Hd). simpl in *. lia.
  - clear -Hall.
    induction Hall as [|line item lines data (dish & Hd & _ & _ & ->) _ IH].
    + constructor.
    + rewrite fmap_cons. constructor; [|done]. by exists dish.
  - apply placed_order_items; [done|apply next_id_fresh].
Qed.

(** C4, for the orders that are returned.  Whatever the storage does, the
    subtotals of the order items of an order that [create_order_from_cart]
    returns add up to the order's total amount, and every subtotal is unit
    price times quantity, in exact arithmetic on hundredths.  A call that
    raises returns no order; it leaves the database as it was, or with the
    order row alone added, which holds the total of the cart and has no
    order item. *)
Theorem order_total_is_sum (s : storage) (d d' : db) (user_id : Z)
    (order_data : OrderCreate) :
  order_items_owned d →
  (∀ order_id order,
     create_order_from_cart_on s d user_id order_data =
       (d', Returned (Some (order_id, order))) →
     orders d !! order_id = None ∧
     orders d' !! order_id = Some order ∧
     sum_list_Z (oi_subtotal <$> (get_order_items d' order_id).*2) =
       o_total_amount order ∧
     Forall (λ item, oi_subtotal item = oi_unit_price item * oi_quantity item)
       (get_order_items d' order_id).*2) ∧
  (create_order_from_cart_on s d user_id order_data = (d', Raised) →
     d' = d ∨
     ∃ order,
       orders d !! next_id (orders d) = None ∧
       d' = set_orders (insert (next_id (orders d)) order) d ∧
       o_total_amount order = get_cart_total d user_id ∧
       get_order_items d' (next_id (orders d)) = []).
Proof.
  intros Hown.
  assert (get_order_items d (next_id (orders d)) = []) as Hnone.
  { unfold get_order_items.
    apply (select_nil (λ r, oi_order_id r.2 = next_id (orders d))).
    intros k item Hk Heq. simpl in Heq.
    destruct (Hown k item Hk) as [o Ho]. rewrite Heq, next_id_fresh in Ho. done. }
  destruct (create_order_cases s d user_id order_data)
    as [[Hf _]|(total & data & _ & Hv & Hs)].
  { rewrite Hf. split; [by intros ? ? ?|by intros ?]. }
  rewrite Hs. cbv zeta.
  apply validate_lines_Some in Hv as (data' & Hd' & Ht & Hall).
  simpl in Hd'. subst data'.
  destruct (commit_ok s 0); [|split; [by intros ? ? ?|intros [= <-]; by left]].
  destruct (commit_ok s 1).
  - split; [|by intros ?]. intros order_id order [= <- <- <-].
    pose proof (placed_order_items d user_id (next_id (orders d))
                  (new_order user_id order_data total) data Hown
                  (next_id_fresh _)) as Hperm.
    split; [apply next_id_fresh|]. split; [apply lookup_insert_eq|]. split.
    + rewrite (sum_list_Z_perm _ (oi_subtotal <$> (order_item_of
                 (next_id (orders d)) <$> data))) by by rewrite Hperm.
      rewrite <- list_fmap_compose. simpl. rewrite Ht.
      unfold sum_list_Z at 2. f_equal.
    + rewrite Hperm. apply Forall_fmap, Forall_forall. intros item Hin.
      destruct (validated_item item Hall Hin)
        as (line & dish & _ & _ & _ & _ & ->).
      done.
  - split; [by intros ? ? ?|]. intros [= <-]. right.
    exists (new_order user_id order_data total).
    split; [apply next_id_fresh|]. split; [done|]. split; [|exact Hnone].
    simpl. rewrite Ht, (cart_total_priced d user_id data Hall). lia.
Qed.

(** ** Reachable states *)

Section Reachable.
Variable hash_password : string → string.

(** C5. In every state the services can reach, no dish has a negative
    stock; and from such a state, order placement, whatever the storage
    does, leaves no dish with a negative stock either. *)
Theorem stock_never_negative (ops : list op) :
  Forall valid_op ops →
  (∀ i dish, dishes (run hash_password ops) !! i = Some dish →
             0 ≤ d_stock_quantity dish) ∧
  (∀ s user_id order_data i dish,
     dishes (create_order_from_cart_on s (run hash_password ops)
               user_id order_data).1 !! i = Some dish →
     0 ≤ d_stock_quantity dish).
Proof.
  intros Hv. split.
  - intros i dish Hi.
    exact (inv_stock _ (run_invariant hash_password ops Hv) i dish Hi).
  - intros s user_id order_data i dish Hi.
    assert (Forall valid_op (ops ++ [PlaceOrder s user_id order_data])) as Hv'.
    { apply Forall_app. split; [done|]. by apply Forall_singleton. }
    pose proof (inv_stock _ (run_invariant hash_password _ Hv')) as Hst.
    rewrite run_snoc in Hst. exact (Hst i dish Hi).
Qed.

(** C6. In every state the services can reach, no two cart rows have the
    same user and dish; and there, adding a dish the user already has a
    line for either fails and changes nothing, or adds the requested
    quantity to that line, which grows, the rows of the cart staying the
    same. *)
Theorem cart_one_row_per_dish (ops : list op) :
  Forall valid_op ops →
  (∀ i j r s,
     cart_items (run hash_password ops) !! i = Some r →
     cart_items (run hash_password ops) !! j = Some s →
     ci_user_id r = ci_user_id s → ci_dish_id r = ci_dish_id s → i = j) ∧
  (∀ user_id cart_data i r,
     CartItemCreate_valid cart_data →
     cart_line (run hash_password ops) user_id (cc_dish_id cart_data) i r →
     add_to_cart (run hash_password ops) user_id cart_data =
       (run hash_password ops, None) ∨
     (add_to_cart (run hash_password ops) user_id cart_data =
        (set_cart_items
           (insert i (with_quantity r (ci_quantity r + cc_quantity cart_data)))
           (run hash_password ops),
         Some (i, with_quantity r (ci_quantity r + cc_quantity cart_data))) ∧
      ci_quantity r < ci_quantity r + cc_quantity cart_data ∧
      dom (cart_items (add_to_cart (run hash_password ops) user_id cart_data).1) =
        dom (cart_items (run hash_password ops)))).
Proof.
  intros Hv. pose proof (run_invariant hash_password ops Hv) as [_ _ _ Hun _].
  split.
  - intros i j r s Hi Hj. exact (Hun i r Hi j s Hj).
  - intros user_id cart_data i r Hc Hl.
    rewrite (add_to_cart_existing _ _ _ _ _ Hun Hl).
    destruct (dishes _ !! cc_dish_id cart_data) as [dish|]; [|by left].
    destruct (_ || _); [by left|]. right. split; [done|].
    unfold CartItemCreate_valid in Hc. split; [lia|]. simpl.
    apply dom_insert_lookup_L. destruct Hl as [Hi _]. by eexists.
Qed.

End Reachable.

(** ** Accounts *)

Section Accounts.
Variable hash_password : string → string.

(** The two ways [register_user] ends. *)
Lemma register_user_cases d user_data :
  (register_user hash_password d user_data = (d, None) ∧
   ∃ i a, users d !! i = Some a ∧ u_email a = uc_email user_data) ∨
  (register_user hash_password d user_data =
     (set_users (insert (next_id (users d)) (new_user hash_password user_data)) d,
      Some (next_id (users d), new_user hash_password user_data)) ∧
   ∀ i a, users d !! i = Some a → u_email a ≠ uc_email user_data).
Proof.
  unfold register_user.
  destruct (head _) as [[i a]|] eqn:Hh.
  - left. split; [done|]. exists i, a.
    by apply (head_select_Some (λ r, u_email r.2 = uc_email user_data)) in Hh.
  - right. split; [done|]. intros i a Hi.
    by eapply (head_select_None (λ r, u_email r.2 = uc_email user_data)) in Hh.
Qed.

(** Only registration writes the table of users. *)
Lemma users_exec d o :
  users (exec hash_password d o) =
    match o with
    | Register user_data => users (register_user hash_password d user_data).1
    | _ => users d
    end.
Proof.
  destruct o as [user_data|dish_data|i dish_data|i|u cart_data|u i update_data
                 |u i|u|s u order_data|i status]; simpl; try done.
  - unfold update_dish. destruct (dishes d !! i); [|done].
    by destruct (update_fields _ _).
  - unfold delete_dish. by destruct (dishes d !! i).
  - unfold add_to_cart. destruct (dishes d !! _); [|done].
    destruct (_ || _); [done|]. destruct (head _); [|done].
    by destruct (bool_decide _).
  - unfold update_cart_item. destruct (cart_items d !! i); [|done].
    destruct (decide _); [|done]. destruct (dishes d !! _); [|done].
    by destruct (_ || _).
  - unfold remove_from_cart. destruct (cart_items d !! i); [|done].
    by destruct (decide _).
  - destruct (create_order_cases s d u order_data)
      as [[-> _]|(total & data & _ & _ & ->)]; [done|].
    cbv zeta. by destruct (commit_ok s 0), (commit_ok s 1).
  - unfold update_order_status. by destruct (orders d !! i).
Qed.

Lemma users_register d user_data i a :
  users (register_user hash_password d user_data).1 !! i = Some a ↔
  users d !! i = Some a ∨ (register_user hash_password d user_data).2 = Some (i, a).
Proof.
  destruct (register_user_cases d user_data) as [[-> _]|[-> Hnew]]; simpl.
  - split; [by left|by intros [?|?]].
  - destruct (decide (next_id (users d) = i)) as [<-|Hne].
    + rewrite lookup_insert_eq, next_id_fresh. split.
      * intros [= <-]. by right.
      * intros [?|[= <-]]; done.
    + rewrite lookup_insert_ne by done. split; [by left|].
      intros [?|[= ? _]]; done.
Qed.

Lemma users_unique_exec d o : users_unique d → users_unique (exec hash_password d o).
Proof.
  intros Hun. unfold users_unique. rewrite users_exec.
  destruct o as [user_data| | | | | | | | |]; try done.
  destruct (register_user_cases d user_data) as [[-> _]|[-> Hnew]]; [done|].
  simpl. intros i a Hi j b Hj Heq.
  destruct (decide (next_id (users d) = i)) as [<-|Hi'],
           (decide (next_id (users d) = j)) as [<-|Hj']; simplify_map_eq.
  - done.
  - by destruct (Hnew j b).
  - by destruct (Hnew i a).
  - exact (Hun i a Hi j b Hj Heq).
Qed.

Lemma users_unique_run ops : users_unique (run hash_password ops).
Proof.
  induction ops as [|o ops IH] using rev_ind; [done|].
  rewrite run_snoc. by apply users_unique_exec.
Qed.

Lemma registered_snoc ops o user_data user :
  registered hash_password (ops ++ [o]) user_data user ↔
  registered hash_password ops user_data user ∨
  (o = Register user_data ∧ (register_user hash_password (run hash_password ops) user_data).2 = Some user).
Proof.
  split.
  - intros (before & after & Heq & Hr).
    destruct after as [|o' after _] using rev_ind.
    + apply app_inj_tail in Heq as [-> ->]. by right.
    + rewrite app_comm_cons, app_assoc in Heq.
      apply app_inj_tail in Heq as [-> ->]. left. by exists before, after.
  - intros [(before & after & -> & Hr)|[-> Hr]].
    + exists before, (after ++ [o]). split; [|done].
      by rewrite <- app_assoc.
    + by exists ops, [].
Qed.

(** The users of a reached state are those the registrations returned. *)
Lemma users_run_registered ops i a :
  users (run hash_password ops) !! i = Some a ↔ ∃ user_data, registered hash_password ops user_data (i, a).
Proof.
  induction ops as [|o ops IH] using rev_ind.
  - split; [done|]. intros (user_data & before & after & Heq & _).
    by destruct before.
  - rewrite run_snoc, users_exec. split.
    + intros Hi. destruct o as [user_data| | | | | | | | |];
        try (apply IH in Hi as [ud Hr]; exists ud; apply registered_snoc; by left).
      apply users_register in Hi as [Hi|Hi].
      * apply IH in Hi as [ud Hr]. exists ud. apply registered_snoc. by left.
      * exists user_data. apply registered_snoc. by right.
    + intros (ud & [Hr|[-> Hr]]%registered_snoc).
      * assert (users (run hash_password ops) !! i = Some a) as Hi by (apply IH; by exists ud).
        destruct o; try done. apply users_register. by left.
      * apply users_register. by right.
Qed.

Lemma registered_user ops user_data user :
  registered hash_password ops user_data user → user.2 = new_user hash_password user_data.
Proof.
  intros (before & after & _ & Hr).
  destruct (register_user_cases (run hash_password before) user_data) as [[Hc _]|[Hc _]];
    rewrite Hc in Hr; [done|]. by injection Hr as <-.
Qed.

Lemma registered_in ops user_data user :
  registered hash_password ops user_data user → Register user_data ∈ ops.
Proof.
  intros (before & after & -> & _). apply elem_of_app. right. by left.
Qed.

(** Authentication succeeds exactly on a stored user with that email and
    the hash of that password. *)
Lemma authenticate_user_Some d login_data user :
  users_unique d →
  authenticate_user hash_password d login_data = Some user ↔
  users d !! user.1 = Some user.2 ∧
  u_email user.2 = ul_email login_data ∧
  u_password_hash user.2 = hash_password (ul_password login_data).
Proof.
  intros Hun. unfold authenticate_user. split.
  - destruct (head _) as [x|] eqn:Hh; [|done].
    apply (head_select_Some (λ r, u_email r.2 = ul_email login_data)) in Hh
      as [Hx He].
    destruct (decide _) as [Hp|]; [|done]. by intros [= <-].
  - intros (Hu & He & Hp).
    destruct (head _) as [x|] eqn:Hh.
    + apply (head_select_Some (λ r, u_email r.2 = ul_email login_data)) in Hh
        as [Hx He'].
      assert (x.1 = user.1) as Hk.
      { apply (Hun _ _ Hx _ _ Hu). simpl in He'. congruence. }
      assert (x = user) as ->.
      { destruct x, user. simpl in *. congruence. }
      by rewrite decide_True.
    + exfalso.
      eapply (head_select_None (λ r, u_email r.2 = ul_email login_data)); eauto.
Qed.

(** C8. After any history of service calls, [authenticate_user] returns
    a user for an email and a password exactly when a registration with
    that email and that password succeeded before and returned that user,
    provided no registered password collides with the given one under the
    hash; in any case it returns only a user whose stored hash is the hash
    of the given password.  The row a registration stores holds the hash of
    the password, and authenticating right after with the same email and
    password returns the registered user. *)
Theorem authenticate_iff_registered (ops : list op) (email password : string) :
  (∀ user_data, Register user_data ∈ ops →
     hash_password (uc_password user_data) = hash_password password →
     uc_password user_data = password) →
  (∀ user,
     authenticate_user hash_password (run hash_password ops)
       (mkUserLogin email password) = Some user ↔
     ∃ user_data,
       uc_email user_data = email ∧ uc_password user_data = password ∧
       registered hash_password ops user_data user) ∧
  (∀ user,
     authenticate_user hash_password (run hash_password ops)
       (mkUserLogin email password) = Some user →
     u_password_hash user.2 = hash_password password) ∧
  (∀ user_data user,
     (register_user hash_password (run hash_password ops) user_data).2
       = Some user →
     u_password_hash user.2 = hash_password (uc_password user_data) ∧
     authenticate_user hash_password
       (register_user hash_password (run hash_password ops) user_data).1
       (mkUserLogin (uc_email user_data) (uc_password user_data)) = Some user).
Proof.
  intros Hcol. pose proof (users_unique_run ops) as Hun. split; [|split].
  - intros [i a]. rewrite (authenticate_user_Some _ _ _ Hun). simpl. split.
    + intros (Hi & He & Hp).
      apply users_run_registered in Hi as [ud Hr]. exists ud.
      pose proof (registered_user _ _ _ Hr) as Ha. simpl in Ha. subst a.
      simpl in *. split; [done|]. split; [|done].
      apply Hcol; [by eapply registered_in|done].
    + intros (ud & <- & <- & Hr).
      pose proof (registered_user _ _ _ Hr) as Ha. simpl in Ha. subst a.
      split; [|done]. apply users_run_registered. by exists ud.
  - intros user Ha. by apply (authenticate_user_Some _ _ _ Hun) in Ha as (_ & _ & Hp).
  - intros user_data [i a] Hr.
    assert (a = new_user hash_password user_data) as ->.
    { apply (registered_user (ops ++ [Register user_data]) user_data (i, _)).
      apply registered_snoc. by right. }
    split; [done|].
    pose proof (users_unique_exec _ (Register user_data) Hun) as Hun'.
    apply (authenticate_user_Some _ _ _ Hun'). simpl.
    split; [|done]. apply users_register. by right.
Qed.

End Accounts.

(** ** The small shop, checked *)

Lemma shop_db_reached : run tag_hash shop_history = shop_db.
Proof. by vm_compute. Qed.

Lemma shop_history_valid : Forall valid_op shop_history.
Proof. repeat constructor; by vm_compute. Defined.

(** C1, as the specification states it, fails: when the storage fails at
    the second commit, the order row is in the database, but no order item
    is, the stock of the pizza is still ten and the cart still holds the
    line; this is neither the state before the call nor the state a
    complete call leaves. *)
Lemma create_order_not_atomic :
  ¬ all_or_nothing (FaultAfter 1) shop_db 1 shop_order ∧
  (create_order_from_cart_on (FaultAfter 1) shop_db 1 shop_order).2 = Raised ∧
  orders (create_order_from_cart_on (FaultAfter 1) shop_db 1 shop_order).1 !! 1
    = Some (mkOrder 1 0 PICKUP PENDING 3198 "") ∧
  order_items (create_order_from_cart_on (FaultAfter 1) shop_db 1 shop_order).1
    = ∅ ∧
  dishes (create_order_from_cart_on (FaultAfter 1) shop_db 1 shop_order).1 !! 1
    = Some (mkDish "Pizza" 1599 "" None "Pizza" 10 true) ∧
  get_cart_items (create_order_from_cart_on (FaultAfter 1) shop_db 1 shop_order).1 1
    = [(1, mkCartItem 1 1 2)].
Proof.
  split; [|by vm_compute].
  intros [H|H].
  - apply (f_equal (λ d, orders d !! 1)) in H. vm_compute in H. discriminate.
  - apply (f_equal (λ d, dishes d !! 1)) in H. vm_compute in H. discriminate.
Qed.

Lemma create_order_failure_unchanged_witness :
  create_order_from_cart shop_db_short 1 shop_order
    = (shop_db_short, Returned None) ∧
  (shop_db_short = shop_db_short ∧
   (get_cart_items shop_db_short 1 = [] ∨
    ¬ Forall (line_ok (dishes shop_db_short)) (get_cart_items shop_db_short 1))).
Proof.
  assert (create_order_from_cart shop_db_short 1 shop_order
            = (shop_db_short, Returned None)) as H by (by vm_compute).
  split; [exact H|].
  exact (create_order_failure_unchanged shop_db_short shop_db_short 1 shop_order H).
Defined.

Lemma shop_db_invariant : db_invariant shop_db.
Proof. constructor; by_evaluation. Defined.

Lemma shop_db_three_invariant : db_invariant shop_db_three.
Proof. constructor; by_evaluation. Defined.

Lemma shop_lines_ok : Forall (line_ok (dishes shop_db)) (get_cart_items shop_db 1).
Proof.
  change (get_cart_items shop_db 1) with [(1, mkCartItem 1 1 2)].
  constructor; [|constructor].
  exists (mkDish "Pizza" 1599 "" None "Pizza" 10 true).
  split; [by vm_compute|]. split; [done|]. by vm_compute.
Defined.

Lemma grand_db_reached : run tag_hash grand_history = grand_db.
Proof. by vm_compute. Qed.

(** C3, as the specification states it, fails.  The cart of the user holds
    two of a dish that exists, is available and has ten in stock, in a
    database that a valid history leads to; the total, 199999999.98, is
    past the ten digits of [total_amount], and the call raises at its
    first commit and leaves the database as it was: no order, the stock
    still ten, the cart still full. *)
Lemma create_order_over_limit :
  Forall valid_op grand_history ∧
  run tag_hash grand_history = grand_db ∧
  get_cart_items grand_db 1 = [(1, mkCartItem 1 1 2)] ∧
  Forall (line_ok (dishes grand_db)) (get_cart_items grand_db 1) ∧
  get_cart_total grand_db 1 = 19999999998 ∧
  create_order_from_cart_stored grand_db 1 shop_order = (grand_db, Raised) ∧
  ¬ ∃ d' order, create_order_from_cart_stored grand_db 1 shop_order =
                  (d', Returned (Some order)).
Proof.
  split; [repeat constructor; by vm_compute|].
  split; [by vm_compute|]. split; [by vm_compute|].
  split.
  { change (get_cart_items grand_db 1) with [(1, mkCartItem 1 1 2)].
    constructor; [|constructor].
    exists (mkDish "Truffle" 9999999999 "" None "Pizza" 10 true).
    split; [by vm_compute|]. split; [done|]. by vm_compute. }
  split; [by vm_compute|].
  assert (create_order_from_cart_stored grand_db 1 shop_order
            = (grand_db, Raised)) as Hr by (by vm_compute).
  split; [exact Hr|]. intros (d' & order & Hs). rewrite Hr in Hs. discriminate.
Qed.

Lemma shop_amounts_fit :
  is_Some (users shop_db !! 1) ∧
  amount_fits (get_cart_total shop_db 1) ∧
  Forall (λ line, amount_fits (line_amount (dishes shop_db) line))
    (get_cart_items shop_db 1).
Proof.
  split; [by eexists|].
  split; apply (bool_decide_unpack _); vm_compute; exact I.
Defined.

Lemma create_order_success_witness :
  (cart_unique shop_db ∧ dish_keys_pos shop_db ∧ order_items_owned shop_db ∧
   is_Some (users shop_db !! 1) ∧
   get_cart_items shop_db 1 ≠ [] ∧
   Forall (line_ok (dishes shop_db)) (get_cart_items shop_db 1) ∧
   amount_fits (get_cart_total shop_db 1) ∧
   Forall (λ line, amount_fits (line_amount (dishes shop_db) line))
     (get_cart_items shop_db 1)) ∧
  (∃ d' order_id order items,
    create_order_from_cart_stored shop_db 1 shop_order =
      (d', Returned (Some (order_id, order))) ∧
    orders shop_db !! order_id = None ∧
    orders d' !! order_id = Some order ∧
    o_status order = PENDING ∧
    o_user_id order = 1 ∧
    o_total_amount order = get_cart_total shop_db 1 ∧
    get_cart_items d' 1 = [] ∧
    (∀ line, line ∈ get_cart_items shop_db 1 →
       ∃ dish dish',
         dishes shop_db !! ci_dish_id line.2 = Some dish ∧
         dishes d' !! ci_dish_id line.2 = Some dish' ∧
         d_stock_quantity dish' = d_stock_quantity dish - ci_quantity line.2 ∧
         d_price dish' = d_price dish ∧
         d_is_available dish' = d_is_available dish) ∧
    Forall2 (λ line item,
       ∃ dish, dishes shop_db !! ci_dish_id line.2 = Some dish ∧
               oi_order_id item = order_id ∧
               oi_dish_id item = ci_dish_id line.2 ∧
               oi_quantity item = ci_quantity line.2 ∧
               oi_unit_price item = d_price dish ∧
               oi_subtotal item = d_price dish * ci_quantity line.2)
      (get_cart_items shop_db 1) items ∧
    (get_order_items d' order_id).*2 ≡ₚ items) ∧
  create_order_from_cart_stored shop_db 1 shop_order =
    (mkDb (users shop_db)
          {[ 1 := mkDish "Pizza" 1599 "" None "Pizza" 8 true ]}
          ∅
          {[ 1 := mkOrder 1 0 PICKUP PENDING 3198 "" ]}
          {[ 1 := mkOrderItem 1 1 2 1599 3198 ]},
     Returned (Some (1, mkOrder 1 0 PICKUP PENDING 3198 ""))).
Proof.
  assert (get_cart_items shop_db 1 ≠ []) as Hne by (by vm_compute).
  pose proof shop_db_invariant as [_ Hkeys _ Hun Hown].
  pose proof shop_amounts_fit as (Hu & Ht & Hl).
  split; [by repeat split; try apply shop_lines_ok|].
  split; [|by vm_compute].
  exact (create_order_success shop_db 1 shop_order Hun Hkeys Hown Hu Hne
           shop_lines_ok Ht Hl).
Defined.

(** C4, as the specification states it, fails.  When the storage fails at
    the second commit, the order that [create_order_from_cart] created is
    in the database with the total of the cart, 31.98, and without any
    order item: the subtotals of its order items add up to zero. *)
Lemma order_total_not_sum :
  (create_order_from_cart_on (FaultAfter 1) shop_db 1 shop_order).2 = Raised ∧
  orders shop_db !! 1 = None ∧
  orders (create_order_from_cart_on (FaultAfter 1) shop_db 1 shop_order).1 !! 1
    = Some (mkOrder 1 0 PICKUP PENDING 3198 "") ∧
  get_order_items
    (create_order_from_cart_on (FaultAfter 1) shop_db 1 shop_order).1 1 = [] ∧
  sum_list_Z
    (oi_subtotal <$>
       (get_order_items
          (create_order_from_cart_on (FaultAfter 1) shop_db 1 shop_order).1
          1).*2)
    ≠ o_total_amount (mkOrder 1 0 PICKUP PENDING 3198 "").
Proof.
  split; [by vm_compute|]. split; [by vm_compute|]. split; [by vm_compute|].
  split; [by vm_compute|]. intros H. vm_compute in H. discriminate.
Qed.

Lemma order_total_is_sum_witness :
  (order_items_owned shop_db_three ∧
   create_order_from_cart_on Healthy shop_db_three 1 shop_order =
     ((create_order_from_cart_on Healthy shop_db_three 1 shop_order).1,
      Returned (Some (1, mkOrder 1 0 PICKUP PENDING 4797 "")))) ∧
  orders shop_db_three !! 1 = None ∧
  orders (create_order_from_cart_on Healthy shop_db_three 1 shop_order).1 !! 1
    = Some (mkOrder 1 0 PICKUP PENDING 4797 "") ∧
  sum_list_Z (oi_subtotal <$>
     (get_order_items
        (create_order_from_cart_on Healthy shop_db_three 1 shop_order).1 1).*2)
    = 4797 ∧
  Forall (λ item, oi_subtotal item = oi_unit_price item * oi_quantity item)
    (get_order_items
       (create_order_from_cart_on Healthy shop_db_three 1 shop_order).1 1).*2.
Proof.
  assert (create_order_from_cart_on Healthy shop_db_three 1 shop_order =
            ((create_order_from_cart_on Healthy shop_db_three 1 shop_order).1,
             Returned (Some (1, mkOrder 1 0 PICKUP PENDING 4797 "")))) as Hr
    by (by vm_compute).
  pose proof (inv_owned _ shop_db_three_invariant) as Hown.
  split; [by split|].
  destruct (order_total_is_sum Healthy shop_db_three
              (create_order_from_cart_on Healthy shop_db_three 1 shop_order).1
              1 shop_order Hown) as [Hret _].
  exact (Hret 1 _ Hr).
Defined.

Lemma stock_never_negative_witness :
  Forall valid_op shop_history ∧
  (∀ i dish, dishes (run tag_hash shop_history) !! i = Some dish →
             0 ≤ d_stock_quantity dish) ∧
  (∀ s user_id order_data i dish,
     dishes (create_order_from_cart_on s (run tag_hash shop_history)
               user_id order_data).1 !! i = Some dish →
     0 ≤ d_stock_quantity dish).
Proof.
  split; [exact shop_history_valid|].
  exact (stock_never_negative tag_hash shop_history shop_history_valid).
Defined.

Lemma cart_one_row_per_dish_witness :
  Forall valid_op shop_history ∧
  add_to_cart (run tag_hash shop_history) 1 (mkCartItemCreate 1 3) =
    (set_cart_items (insert 1 (mkCartItem 1 1 5)) (run tag_hash shop_history),
     Some (1, mkCartItem 1 1 5)).
Proof.
  split; [exact shop_history_valid|].
  destruct (cart_one_row_per_dish tag_hash shop_history shop_history_valid)
    as [_ Hadd].
  assert (cart_line (run tag_hash shop_history) 1 1 1 (mkCartItem 1 1 2)) as Hl
    by (by vm_compute).
  assert (CartItemCreate_valid (mkCartItemCreate 1 3)) as Hc by (by vm_compute).
  destruct (Hadd 1 (mkCartItemCreate 1 3) 1 (mkCartItem 1 1 2) Hc Hl)
    as [Hf|[Hs _]].
  - by vm_compute in Hf.
  - exact Hs.
Defined.


Lemma tag_hash_no_collision user_data password :
  tag_hash (uc_password user_data) = tag_hash password →
  uc_password user_data = password.
Proof. unfold tag_hash. cbn. intros [= H]. exact H. Defined.

Lemma authenticate_iff_registered_witness :
  (∀ user_data, Register user_data ∈ shop_history →
     tag_hash (uc_password user_data) = tag_hash "password123" →
     uc_password user_data = "password123") ∧
  authenticate_user tag_hash (run tag_hash shop_history)
    (mkUserLogin "u@example.com" "password123") =
    Some (1, mkUser "U" "u@example.com" "#password123" "555-0100"
               REGULAR None true) ∧
  (∀ user, authenticate_user tag_hash (run tag_hash shop_history)
             (mkUserLogin "u@example.com" "password124") = Some user →
           ∃ user_data, uc_password user_data = "password124" ∧
                        registered tag_hash shop_history user_data user).
Proof.
  assert (∀ p user_data, Register user_data ∈ shop_history →
            tag_hash (uc_password user_data) = tag_hash p →
            uc_password user_data = p) as Hcol.
  { intros p user_data _. apply tag_hash_no_collision. }
  split; [exact (Hcol _)|]. split.
  - apply (authenticate_iff_registered tag_hash shop_history
             "u@example.com" "password123" (Hcol _)).
    exists shop_user. split; [done|]. split; [done|].
    exists [], [CreateDish shop_pizza; AddToCart 1 (mkCartItemCreate 1 2)].
    split; [done|]. by vm_compute.
  - intros user Ha.
    apply (authenticate_iff_registered tag_hash shop_history
             "u@example.com" "password124" (Hcol _)) in Ha
      as (user_data & _ & Hp & Hr).
    by exists user_data.
Defined.

(** ** Registration *)

Section Registration.
Variable hash_password : string → string.

(** No call of the services changes or removes a user. *)
Lemma users_kept_exec d o i a :
  users d !! i = Some a → users (exec hash_password d o) !! i = Some a.
Proof.
  intros Hi. rewrite users_exec. destruct o; try done.
  apply users_register. by left.
Qed.

Lemma users_kept d more i a :
  users d !! i = Some a →
  users (foldl (exec hash_password) d more) !! i = Some a.
Proof.
  revert d. induction more as [|o more IH]; intros d Hi; [done|].
  simpl. apply IH. by apply users_kept_exec.
Qed.

(** X1. Once a registration has succeeded, and whatever calls of the
    services follow it, a registration with the same email, whatever else
    it says, returns nothing and changes nothing, and the user registered
    is found by id as registered; the registration itself stored the user
    under an id not in use, with the email given, and left every earlier
    user and every other table as they were. *)
Theorem register_user_conflict (d d' : db) (user_data : UserCreate)
    (user : Z * User) (more : list op) :
  register_user hash_password d user_data = (d', Some user) →
  (∀ other, uc_email other = uc_email user_data →
     register_user hash_password (foldl (exec hash_password) d' more) other =
       (foldl (exec hash_password) d' more, None)) ∧
  get_user_by_id (foldl (exec hash_password) d' more) user.1 = Some user ∧
  u_email user.2 = uc_email user_data ∧
  users d !! user.1 = None ∧
  (∀ i a, users d !! i = Some a → users d' !! i = Some a) ∧
  d' = set_users (λ _, users d') d.
Proof.
  intros Hr.
  destruct (register_user_cases hash_password d user_data)
    as [[Hc _]|[Hc Hnew]]; rewrite Hc in Hr; [done|].
  injection Hr as <- <-. simpl.
  assert (users (foldl (exec hash_password)
                   (set_users (insert (next_id (users d))
                                 (new_user hash_password user_data)) d) more)
            !! next_id (users d) = Some (new_user hash_password user_data))
    as Hkept.
  { apply users_kept. simpl. apply lookup_insert_eq. }
  split; [|split; [|split; [done|split; [apply next_id_fresh|split; [|done]]]]].
  - intros other He.
    destruct (register_user_cases hash_password
                (foldl (exec hash_password)
                   (set_users (insert (next_id (users d))
                                 (new_user hash_password user_data)) d) more)
                other)
      as [[Hc' _]|[_ Hnew']]; [done|].
    exfalso. apply (Hnew' _ _ Hkept). simpl. by rewrite He.
  - unfold get_user_by_id. by rewrite Hkept.
  - intros i a Hi. rewrite lookup_insert_ne; [done|].
    intros <-. by rewrite next_id_fresh in Hi.
Qed.

Lemma users_regular_exec d o :
  users_regular d → users_regular (exec hash_password d o).
Proof.
  intros Hreg. unfold users_regular. rewrite users_exec.
  destruct o as [user_data| | | | | | | | |]; try done.
  destruct (register_user_cases hash_password d user_data)
    as [[-> _]|[-> _]]; [done|].
  simpl. by apply map_Forall_insert_2.
Qed.

(** X2. Whatever the history of service calls, no two users have the same
    email, and every user is a regular, active user: the services never
    make an administrator and never deactivate an account. *)
Theorem users_unique_regular (ops : list op) :
  (∀ i j a b,
     users (run hash_password ops) !! i = Some a →
     users (run hash_password ops) !! j = Some b →
     u_email a = u_email b → i = j) ∧
  (∀ i a, users (run hash_password ops) !! i = Some a →
          u_role a = REGULAR ∧ u_is_active a = true).
Proof.
  split.
  - intros i j a b Hi Hj. exact (users_unique_run hash_password ops i a Hi j b Hj).
  - induction ops as [|o ops IH] using rev_ind; [done|].
    rewrite run_snoc. by apply users_regular_exec.
Qed.

End Registration.

(** ** Departments *)

Lemma create_department_cases t dept_data :
  (create_department t dept_data = (t, None) ∧
   ∃ i a, t !! i = Some a ∧ dp_name a = dpc_name dept_data) ∨
  (create_department t dept_data =
     (<[next_id t := new_department dept_data]> t,
      Some (next_id t, new_department dept_data)) ∧
   ∀ i a, t !! i = Some a → dp_name a ≠ dpc_name dept_data).
Proof.
  unfold create_department.
  destruct (head _) as [[i a]|] eqn:Hh.
  - left. split; [done|]. exists i, a.
    by apply (head_select_Some (λ r, dp_name r.2 = dpc_name dept_data)) in Hh.
  - right. split; [done|]. intros i a Hi.
    by eapply (head_select_None (λ r, dp_name r.2 = dpc_name dept_data)) in Hh.
Qed.

(** Writing a department back under its key with a name no other
    department has. *)
Lemma dept_names_unique_rewrite (t : gmap Z Department) i a a' :
  dept_names_unique t → t !! i = Some a →
  (∀ j b, t !! j = Some b → j ≠ i → dp_name b ≠ dp_name a') →
  dept_names_unique (<[i := a']> t).
Proof.
  intros Hun Hi Hfree j b Hj k c Hk Heq.
  destruct (decide (i = j)) as [<-|Hij], (decide (i = k)) as [<-|Hik];
    simplify_map_eq; [done|..].
  - exfalso. by apply (Hfree k c).
  - exfalso. by apply (Hfree j b).
  - exact (Hun j b Hj k c Hk Heq).
Qed.

(** Writing a department back under its key with the name it has. *)
Lemma dept_names_unique_same_name (t : gmap Z Department) i a a' :
  dept_names_unique t → t !! i = Some a → dp_name a' = dp_name a →
  dept_names_unique (<[i := a']> t).
Proof.
  intros Hun Hi Hname. eapply dept_names_unique_rewrite; [done..|].
  intros j b Hj Hne Heq. apply Hne. symmetry.
  apply (Hun i a Hi j b Hj). by rewrite <- Hname.
Qed.

(** What a call that assigns no name does to a department. *)
Lemma update_department_keeps_name t dept_id dept_data :
  dpu_name dept_data = Unset →
  (update_department t dept_id dept_data).1 = t ∨
  ∃ a a', t !! dept_id = Some a ∧ dp_name a' = dp_name a ∧
          (update_department t dept_id dept_data).1 = <[dept_id := a']> t.
Proof.
  intros Hname. unfold update_department.
  destruct (t !! dept_id) as [a|] eqn:Hi; [|by left].
  unfold update_department_fields. rewrite Hname. simpl.
  destruct (assign (dpu_is_active dept_data) (dp_is_active a)) as [act|];
    simpl; [|by left].
  destruct (name_taken _ _ _); [by left|]. right. eexists a, _.
  split; [done|]. split; [|reflexivity]. done.
Qed.

Lemma dept_names_unique_exec t o :
  keeps_name o → dept_names_unique t → dept_names_unique (dept_exec t o).
Proof.
  intros Hkeep Hun. destruct o as [dept_data|i dept_data|i]; simpl.
  - destruct (create_department_cases t dept_data) as [[-> _]|[-> Hnew]];
      [done|]. simpl.
    intros j b Hj k c Hk Heq.
    destruct (decide (next_id t = j)) as [<-|Hj'],
             (decide (next_id t = k)) as [<-|Hk']; simplify_map_eq.
    + done.
    + by destruct (Hnew k c).
    + by destruct (Hnew j b).
    + exact (Hun j b Hj k c Hk Heq).
  - destruct (update_department_keeps_name t i dept_data Hkeep)
      as [->|(a & a' & Hi & Hname & ->)]; [done|].
    by eapply dept_names_unique_same_name.
  - unfold delete_department. destruct (t !! i) as [a|] eqn:Hi; [|done].
    simpl. by eapply dept_names_unique_same_name.
Qed.

(** A department keeps its key and its name through the calls that assign
    no name. *)
Lemma dept_name_kept_exec t o i a :
  keeps_name o → t !! i = Some a →
  ∃ a', dept_exec t o !! i = Some a' ∧ dp_name a' = dp_name a.
Proof.
  intros Hkeep Hi. destruct o as [dept_data|k dept_data|k]; simpl.
  - destruct (create_department_cases t dept_data) as [[-> _]|[-> _]];
      [by exists a|]. simpl. exists a. split; [|done].
    rewrite lookup_insert_ne; [done|].
    intros <-. by rewrite next_id_fresh in Hi.
  - destruct (update_department_keeps_name t k dept_data Hkeep)
      as [->|(b & b' & Hk & Hname & ->)]; [by exists a|].
    destruct (decide (k = i)) as [->|Hne].
    + exists b'. rewrite lookup_insert_eq. split; [done|congruence].
    + exists a. by rewrite lookup_insert_ne.
  - unfold delete_department. destruct (t !! k) as [b|] eqn:Hk;
      [|by exists a]. simpl.
    destruct (decide (k = i)) as [->|Hne].
    + exists (deactivate b). rewrite lookup_insert_eq. split; [done|].
      simpl. congruence.
    + exists a. by rewrite lookup_insert_ne.
Qed.

Lemma dept_name_kept t more i a :
  Forall keeps_name more → t !! i = Some a →
  ∃ a', foldl dept_exec t more !! i = Some a' ∧ dp_name a' = dp_name a.
Proof.
  intros Hkeep. revert t a.
  induction Hkeep as [|o more Ho _ IH]; intros t a Hi; [by exists a|].
  simpl. destruct (dept_name_kept_exec t o i a Ho Hi) as (a' & Hi' & Hname).
  destruct (IH _ _ Hi') as (a'' & Hi'' & Hname').
  exists a''. split; [done|congruence].
Qed.

(** X3. Through the calls of the department service that assign no name
    (creating departments, deactivating them, and updating their
    description or their active flag), two different departments never
    have the same name: the check of [create_department] is enough, and
    nothing is asked of the storage. *)
Theorem department_names_unique (ops : list dept_op) (i j : Z)
    (a b : Department) :
  Forall keeps_name ops →
  dept_run ops !! i = Some a → dept_run ops !! j = Some b →
  i ≠ j → dp_name a ≠ dp_name b.
Proof.
  intros Hkeep.
  assert (dept_names_unique (dept_run ops)) as Hun.
  { induction ops as [|o ops IH] using rev_ind; [done|].
    apply Forall_app in Hkeep as [Hkeep Ho].
    rewrite Forall_singleton in Ho.
    unfold dept_run. rewrite foldl_app. apply dept_names_unique_exec; [done|].
    by apply IH. }
  intros Hi Hj Hne Heq. apply Hne. exact (Hun i a Hi j b Hj Heq).
Qed.

(** X4. Deleting a department keeps its row and clears its active flag:
    the department leaves the list of departments, its name stays taken
    for [create_department], every other department is as before, and
    deleting it again reports success and changes nothing. *)
Theorem delete_department_soft (t : gmap Z Department) (dept_id : Z)
    (department : Department) :
  t !! dept_id = Some department →
  delete_department t dept_id =
    (<[dept_id := deactivate department]> t, true) ∧
  (∀ r, r ∈ get_all_departments (delete_department t dept_id).1 →
        r.1 ≠ dept_id ∧ r ∈ get_all_departments t) ∧
  (∀ dept_data, dpc_name dept_data = dp_name department →
     create_department (delete_department t dept_id).1 dept_data =
       ((delete_department t dept_id).1, None)) ∧
  delete_department (delete_department t dept_id).1 dept_id =
    ((delete_department t dept_id).1, true).
Proof.
  intros Hi. unfold delete_department at 1. rewrite Hi.
  split; [done|]. unfold delete_department. rewrite Hi. simpl.
  split; [|split].
  - intros [j b] Hin. unfold get_all_departments in *.
    apply elem_of_select in Hin as [Hj Hact]. simpl in *.
    destruct (decide (dept_id = j)) as [<-|Hne].
    + rewrite lookup_insert_eq in Hj. by injection Hj as <-.
    + rewrite lookup_insert_ne in Hj by done. split; [done|].
      by apply elem_of_select.
  - intros dept_data Hname.
    destruct (create_department_cases (<[dept_id:=deactivate department]> t)
                dept_data) as [[-> _]|[_ Hnew]]; [done|].
    exfalso. apply (Hnew dept_id (deactivate department)).
    + apply lookup_insert_eq.
    + by rewrite Hname.
  - rewrite lookup_insert_eq. by rewrite insert_insert_eq.
Qed.

(** X5. A department that [create_department] returns is stored under a
    key not in use, with the name given, with the description given, or
    the empty string when none is given, and active: it is in the list of
    departments, and no earlier department is changed.  Through the calls
    that follow, as long as none assigns a name, no department can be
    created under its name. *)
Theorem create_department_listed (t t' : gmap Z Department)
    (dept_data : DepartmentCreate) (department : Z * Department)
    (more : list dept_op) :
  create_department t dept_data = (t', Some department) →
  Forall keeps_name more →
  t !! department.1 = None ∧
  t' !! department.1 = Some department.2 ∧
  dp_name department.2 = dpc_name dept_data ∧
  dp_description department.2 =
    Some (match dpc_description dept_data with
          | Some description => description
          | None => EmptyString
          end) ∧
  dp_is_active department.2 = true ∧
  department ∈ get_all_departments t' ∧
  (∀ i a, t !! i = Some a → t' !! i = Some a) ∧
  (∀ other, dpc_name other = dpc_name dept_data →
     create_department (foldl dept_exec t' more) other =
       (foldl dept_exec t' more, None)).
Proof.
  intros Hc Hkeep.
  destruct (create_department_cases t dept_data) as [[Hf _]|[Hs Hnew]];
    rewrite ?Hf, ?Hs in Hc; [done|].
  injection Hc as <- <-. simpl.
  split; [apply next_id_fresh|]. split; [apply lookup_insert_eq|].
  split; [done|]. split; [by destruct (dpc_description dept_data)|].
  split; [done|]. split; [|split].
  - unfold get_all_departments. apply elem_of_select. simpl.
    split; [apply lookup_insert_eq|done].
  - intros i a Hi. rewrite lookup_insert_ne; [done|].
    intros <-. by rewrite next_id_fresh in Hi.
  - intros other Hname.
    destruct (dept_name_kept (<[next_id t := new_department dept_data]> t)
                more (next_id t) (new_department dept_data) Hkeep
                (lookup_insert_eq _ _ _))
      as (a' & Hi' & Hname').
    destruct (create_department_cases
                (foldl dept_exec (<[next_id t := new_department dept_data]> t)
                   more) other)
      as [[-> _]|[_ Hnew']]; [done|].
    exfalso. apply (Hnew' _ _ Hi'). rewrite Hname'. simpl. by rewrite Hname.
Qed.

(** X6. The department page cannot change the description of a department
    alone: when the name typed is the name of the department the page
    holds, the update assigns [None] to the name, and the call raises and
    changes nothing. *)
Theorem edit_department_same_name (t : gmap Z Department)
    (dept : Z * Department) (stored : Department) (description : string) :
  t !! dept.1 = Some stored →
  edit_department t dept (dp_name dept.2) description = (t, Raised).
Proof.
  intros Hi. unfold edit_department, update_department. rewrite Hi.
  unfold update_department_fields, changed. simpl.
  by destruct (decide (dp_name dept.2 ≠ dp_name dept.2)).
Qed.

(** ** Dishes *)

Lemma set_dishes_twice f g d :
  set_dishes f (set_dishes g d) = set_dishes (λ t, f (g t)) d.
Proof. done. Qed.


(** X7. Deleting a dish keeps its row, price and stock and clears its
    availability: the dish leaves the list of available dishes and stays
    in the list of all dishes; from then on nobody can add it to a cart,
    and a user whose cart holds it cannot place an order, whatever the
    storage does; deleting it again reports success and changes nothing. *)
Theorem delete_dish_soft (d : db) (dish_id : Z) (dish : Dish) :
  dishes d !! dish_id = Some dish →
  delete_dish d dish_id = (set_dishes (insert dish_id (hide dish)) d, true) ∧
  (∀ r, r ∈ get_available_dishes (delete_dish d dish_id).1 →
        r.1 ≠ dish_id ∧ r ∈ get_available_dishes d) ∧
  (dish_id, hide dish) ∈ get_all_dishes (delete_dish d dish_id).1 ∧
  (∀ user_id cart_data, cc_dish_id cart_data = dish_id →
     add_to_cart (delete_dish d dish_id).1 user_id cart_data =
       ((delete_dish d dish_id).1, None)) ∧
  (∀ s user_id order_data k line,
     cart_items d !! k = Some line →
     ci_user_id line = user_id → ci_dish_id line = dish_id →
     create_order_from_cart_on s (delete_dish d dish_id).1 user_id order_data =
       ((delete_dish d dish_id).1, Returned None)) ∧
  delete_dish (delete_dish d dish_id).1 dish_id =
    ((delete_dish d dish_id).1, true).
Proof.
  intros Hd. unfold delete_dish at 1. rewrite Hd. split; [done|].
  unfold delete_dish. rewrite Hd. simpl.
  split; [|split; [|split; [|split]]].
  - intros [j b] Hin. unfold get_available_dishes in *.
    apply elem_of_select in Hin as [Hj Hav]. simpl in *.
    destruct (decide (dish_id = j)) as [<-|Hne].
    + rewrite lookup_insert_eq in Hj. by injection Hj as <-.
    + rewrite lookup_insert_ne in Hj by done. split; [done|].
      by apply elem_of_select.
  - unfold get_all_dishes. simpl. apply elem_of_map_to_list, lookup_insert_eq.
  - intros user_id cart_data <-. unfold add_to_cart. simpl.
    by rewrite lookup_insert_eq.
  - intros s user_id order_data k line Hk Hu Hl.
    destruct (create_order_cases s (set_dishes (insert dish_id (hide dish)) d)
                user_id order_data)
      as [[Hf _]|(total & data & _ & Hv & _)]; [done|].
    exfalso. apply validate_lines_None_inv in Hv.
    rewrite Forall_forall in Hv.
    destruct (Hv (k, line)) as (dish' & Hd' & Ha & _).
    + unfold get_cart_items. by apply elem_of_select.
    + simpl in Hd'. rewrite Hl, lookup_insert_eq in Hd'.
      by injection Hd' as <-.
  - rewrite lookup_insert_eq. rewrite set_dishes_twice. f_equal.
    unfold set_dishes. f_equal. by rewrite insert_insert_eq.
Qed.

(** X8. [create_dish] stores a dish whose stock fits an [int] column and
    whose price fits a [Decimal] column under a new, positive id, with
    the fields given and available: it is found again by that id and is
    in the list of available dishes, and every earlier dish is as it
    was.  A dish whose stock or price does not fit is refused by the
    storage: the call raises, and nothing is stored. *)
Theorem create_dish_found (d : db) (dish_data : DishCreate) :
  (int_fits (dc_stock_quantity dish_data) →
   amount_fits (dc_price dish_data) →
   ∃ id dish,
     create_dish_stored d dish_data =
       (set_dishes (insert id dish) d, Returned (id, dish)) ∧
     dishes d !! id = None ∧
     0 < id ∧
     get_dish_by_id (create_dish_stored d dish_data).1 id = Some (id, dish) ∧
     (id, dish) ∈ get_available_dishes (create_dish_stored d dish_data).1 ∧
     d_name dish = dc_name dish_data ∧
     d_price dish = dc_price dish_data ∧
     d_description dish = dc_description dish_data ∧
     d_image_url dish = dc_image_url dish_data ∧
     d_category dish = dc_category dish_data ∧
     d_stock_quantity dish = dc_stock_quantity dish_data ∧
     d_is_available dish = true ∧
     (∀ i dish', dishes d !! i = Some dish' →
                 dishes (create_dish_stored d dish_data).1 !! i = Some dish')) ∧
  (¬ (int_fits (dc_stock_quantity dish_data)
      ∧ amount_fits (dc_price dish_data)) →
   create_dish_stored d dish_data = (d, Raised)).
Proof.
  unfold create_dish_stored. split.
  - intros Hs Hp. rewrite decide_True by done.
    eexists _, _. split; [reflexivity|]. simpl.
    split; [apply next_id_fresh|]. split; [apply next_id_pos|].
    split; [|split; [|repeat (split; [done|])]].
    + unfold get_dish_by_id. simpl. by rewrite lookup_insert_eq.
    + unfold get_available_dishes. apply elem_of_select. simpl.
      split; [apply lookup_insert_eq|done].
    + intros i dish' Hi. rewrite lookup_insert_ne; [done|].
      intros <-. by rewrite next_id_fresh in Hi.
  - intros Hn. by rewrite decide_False.
Qed.

(** X9. The dish page cannot change one field of a dish alone: when the
    name, the category, the price, the description or the stock typed is
    the one of the dish the page holds, the update assigns [None] to that
    field, and the call raises and changes nothing. *)
Theorem edit_dish_unchanged_field (d : db) (dish : Z * Dish) (stored : Dish)
    (name category : string) (price : Z) (description image_url : string)
    (stock : Z) :
  dishes d !! dish.1 = Some stored →
  name = d_name dish.2 ∨ category = d_category dish.2 ∨
  price = d_price dish.2 ∨ description = d_description dish.2 ∨
  stock = d_stock_quantity dish.2 →
  edit_dish d dish name category price description image_url stock =
    (d, Raised).
Proof.
  intros Hd Hsame. unfold edit_dish. cbv zeta.
  destruct (decide _); [|done].
  unfold update_dish. rewrite Hd.
  assert (update_fields stored
            (edit_dish_data dish.2 name category price description
               image_url stock) = None) as ->; [|done].
  unfold update_fields, edit_dish_data, changed. simpl.
  destruct (decide (name ≠ d_name dish.2)); [simpl|done].
  destruct (decide (price ≠ d_price dish.2)); [simpl|done].
  destruct (decide (description ≠ d_description dish.2)); [simpl|done].
  destruct (decide (category ≠ d_category dish.2)); [simpl|done].
  destruct (decide (stock ≠ d_stock_quantity dish.2)); [simpl|done].
  by destruct Hsame as [?|[?|[?|[?|?]]]].
Qed.


(** ** Carts and checkout together *)

(** A call that returns an order, taken apart. *)
Lemma create_order_returned d d' user_id order_data order_id order :
  create_order_from_cart d user_id order_data =
    (d', Returned (Some (order_id, order))) →
  ∃ data,
    Forall2 (priced (dishes d)) (get_cart_items d user_id) data ∧
    order_id = next_id (orders d) ∧
    order = new_order user_id order_data (sum_list_Z (subtotal <$> data)) ∧
    d' = placed d user_id order_id order data.
Proof.
  intros Hr.
  destruct (create_order_healthy d user_id order_data)
    as [[Hf _]|(total & data & _ & Hv & Hs)]; [congruence|].
  rewrite Hs in Hr. injection Hr as <- <- <-.
  apply validate_lines_Some in Hv as (data' & Hd' & -> & Hall).
  simpl in Hd'. subst data'. by exists data.
Qed.

(** The stock a dish is left with by the order of a user whose cart names
    it. *)
Lemma placed_stock d user_id order_id order data line dish :
  cart_unique d → dish_keys_pos d →
  Forall2 (priced (dishes d)) (get_cart_items d user_id) data →
  line ∈ get_cart_items d user_id →
  dishes d !! ci_dish_id line.2 = Some dish →
  dishes (placed d user_id order_id order data) !! ci_dish_id line.2 =
    Some (decrement dish (ci_quantity line.2)).
Proof.
  intros Hun Hkeys Hall Hin Hd.
  destruct (validated_line line Hall Hin) as (dish' & Hd' & _ & _ & Hitem).
  assert (dish' = dish) as -> by congruence.
  unfold placed. simpl.
  change (ci_dish_id line.2) with (dish_id (item_of line dish)).
  rewrite take_stock_line; [by simpl; rewrite Hd|..|done|].
  - rewrite (validated_dishes Hall). by apply cart_dishes_NoDup.
  - pose proof (Hkeys _ _ Hd). simpl in *. lia.
Qed.

(** The cart rows of the other users, after the order of one. *)
Lemma placed_cart_other d user_id order_id order data k r :
  ci_user_id r ≠ user_id →
  cart_items (placed d user_id order_id order data) !! k = Some r ↔
  cart_items d !! k = Some r.
Proof.
  intros Hne. unfold placed, get_cart_items. simpl.
  rewrite (lookup_delete_select (λ r, ci_user_id r.2 = user_id)).
  destruct (cart_items d !! k) as [r'|]; [|done].
  destruct (decide _) as [Hu|Hu]; simpl in *; [|done].
  split; [done|]. intros [= ->]. done.
Qed.

(** X11. The total of an order that [create_order_from_cart] returns is
    the total [get_cart_total] gave for the cart just before; afterwards
    the total of the cart is zero. *)
Theorem cart_total_is_order_total (d d' : db) (user_id : Z)
    (order_data : OrderCreate) (order_id : Z) (order : Order) :
  create_order_from_cart d user_id order_data =
    (d', Returned (Some (order_id, order))) →
  o_total_amount order = get_cart_total d user_id ∧
  get_cart_total d' user_id = 0.
Proof.
  intros Hr. apply create_order_returned in Hr as (data & Hall & -> & -> & ->).
  split.
  - unfold get_cart_total. rewrite (cart_total_fold _ _ data) by done.
    simpl. lia.
  - unfold get_cart_total. by rewrite get_cart_items_placed.
Qed.

(** X12. Right after an order is returned, placing an order again for the
    same user returns nothing and changes nothing, whatever the storage
    does: one cart gives one order. *)
Theorem create_order_once (d d' : db) (user_id : Z) (order_data : OrderCreate)
    (order_id : Z) (order : Order) :
  create_order_from_cart d user_id order_data =
    (d', Returned (Some (order_id, order))) →
  ∀ s order_data',
    create_order_from_cart_on s d' user_id order_data' = (d', Returned None).
Proof.
  intros Hr s order_data'.
  apply create_order_returned in Hr as (data & _ & _ & _ & ->).
  unfold create_order_from_cart_on. by rewrite get_cart_items_placed.
Qed.

(** X13. Two users hold the same dish in their carts, and the stock does
    not cover both lines.  Once the first user's order is returned, the
    second user's order returns nothing and changes nothing, whatever the
    storage does. *)
Theorem create_order_contention (d d' : db) (user_id other_id : Z)
    (order_data : OrderCreate) (order_id : Z) (order : Order)
    (k k' : Z) (line line' : CartItem) (dish : Dish) :
  cart_unique d → dish_keys_pos d →
  create_order_from_cart d user_id order_data =
    (d', Returned (Some (order_id, order))) →
  cart_items d !! k = Some line → ci_user_id line = user_id →
  cart_items d !! k' = Some line' → ci_user_id line' = other_id →
  other_id ≠ user_id →
  ci_dish_id line' = ci_dish_id line →
  dishes d !! ci_dish_id line = Some dish →
  d_stock_quantity dish < ci_quantity line + ci_quantity line' →
  ∀ s order_data',
    create_order_from_cart_on s d' other_id order_data' = (d', Returned None).
Proof.
  intros Hun Hkeys Hr Hk Hu Hk' Hu' Hne Hsame Hd Hshort s order_data'.
  apply create_order_returned in Hr as (data & Hall & _ & _ & ->).
  destruct (create_order_cases s (placed d user_id order_id order data)
              other_id order_data')
    as [[Hf _]|(total & data' & _ & Hv & _)]; [done|].
  exfalso. apply validate_lines_None_inv in Hv. rewrite Forall_forall in Hv.
  destruct (Hv (k', line')) as (dish' & Hd' & _ & Hs').
  - unfold get_cart_items. apply elem_of_select. split; [|done].
    apply placed_cart_other; [congruence|done].
  - assert ((k, line) ∈ get_cart_items d user_id) as Hin.
    { unfold get_cart_items. by apply elem_of_select. }
    pose proof (placed_stock d user_id order_id order data (k, line) dish
                  Hun Hkeys Hall Hin Hd) as Hst.
    cbn [snd] in Hst, Hd', Hs'. rewrite Hsame in Hd'.
    assert (dish' = decrement dish (ci_quantity line)) as -> by congruence.
    simpl in Hs'. lia.
Qed.

(** X14. The cart services of one user leave the cart rows of every other
    user in place: adding to the cart, clearing it, and placing an order,
    whatever the storage does. *)
Theorem cart_rows_of_others (d : db) (user_id : Z) (k : Z) (r : CartItem) :
  ci_user_id r ≠ user_id →
  (∀ cart_data,
     cart_items (add_to_cart d user_id cart_data).1 !! k = Some r ↔
     cart_items d !! k = Some r) ∧
  (cart_items (clear_cart d user_id).1 !! k = Some r ↔
   cart_items d !! k = Some r) ∧
  (∀ s order_data,
     cart_items (create_order_from_cart_on s d user_id order_data).1 !! k
       = Some r ↔
     cart_items d !! k = Some r).
Proof.
  intros Hne. split; [|split].
  - intros cart_data. unfold add_to_cart.
    destruct (dishes d !! _) as [dish|]; [|done].
    destruct (_ || _); [done|].
    destruct (head _) as [[j e]|] eqn:Hh.
    + apply existing_item_line in Hh as (Hj & Hu & _). simpl in *.
      destruct (bool_decide _); [done|]. simpl.
      destruct (decide (j = k)) as [->|Hjk].
      * rewrite lookup_insert_eq, Hj. split; intros [= <-]; by destruct Hne.
      * by rewrite lookup_insert_ne.
    + simpl. destruct (decide (next_id (cart_items d) = k)) as [<-|Hjk].
      * rewrite lookup_insert_eq, next_id_fresh. split; [|done].
        intros [= <-]. by destruct Hne.
      * by rewrite lookup_insert_ne.
  - rewrite clear_cart_lookup. destruct (cart_items d !! k) as [r'|]; [|done].
    destruct (decide _) as [Hu|Hu]; [|done].
    split; [done|]. intros [= ->]. done.
  - intros s order_data.
    destruct (create_order_cases s d user_id order_data)
      as [[-> _]|(total & data & _ & _ & ->)]; [done|].
    cbv zeta. destruct (commit_ok s 0); [|done].
    destruct (commit_ok s 1); [|done]. simpl fst.
    by apply placed_cart_other.
Qed.

(** ** Orders *)

(** X15. [update_order_status] gives an order that exists the status
    passed, whatever status it had: the order returned and stored has that
    status and, for the rest, the fields it had; it is the order found by
    its id afterwards; the other orders and the items of the order are as
    they were; and a second update leaves what it alone would have left.
    For an id that is not there it returns nothing and changes nothing. *)
Theorem update_order_status_overwrites (d : db) (order_id : Z)
    (status status' : OrderStatus) :
  (orders d !! order_id = None →
   update_order_status d order_id status = (d, None)) ∧
  (∀ order, orders d !! order_id = Some order →
   ∃ order',
     update_order_status d order_id status =
       (set_orders (insert order_id order') d, Some (order_id, order')) ∧
     o_status order' = status ∧
     same_receipt order order' ∧
     get_order_by_id (update_order_status d order_id status).1 order_id =
       Some (order_id, order') ∧
     (∀ k, k ≠ order_id →
           orders (update_order_status d order_id status).1 !! k =
             orders d !! k) ∧
     get_order_items (update_order_status d order_id status).1 order_id =
       get_order_items d order_id ∧
     update_order_status (update_order_status d order_id status).1
       order_id status' = update_order_status d order_id status').
Proof.
  unfold update_order_status. split.
  - by intros ->.
  - intros order ->. eexists. split; [reflexivity|]. simpl.
    split; [done|]. split; [done|]. split; [|split; [|split; [done|]]].
    + unfold get_order_by_id. simpl. by rewrite lookup_insert_eq.
    + intros k Hk. by rewrite lookup_insert_ne.
    + rewrite lookup_insert_eq. unfold set_orders. simpl.
      by rewrite insert_insert_eq.
Qed.

(** X16. After [create_order_from_cart] returns an order, the orders of
    the user are those the user had and the new one, the orders of every
    other user are as before, and the new order is found by its id. *)
Theorem create_order_listed (d d' : db) (user_id : Z)
    (order_data : OrderCreate) (order_id : Z) (order : Order) :
  create_order_from_cart d user_id order_data =
    (d', Returned (Some (order_id, order))) →
  get_order_by_id d' order_id = Some (order_id, order) ∧
  get_order_by_id d order_id = None ∧
  (order_id, order) ∈ get_all_orders d' ∧
  ∀ other_id r,
    r ∈ get_user_orders d' other_id ↔
    r ∈ get_user_orders d other_id ∨
    (other_id = user_id ∧ r = (order_id, order)).
Proof.
  intros Hr. apply create_order_returned in Hr as (data & _ & -> & Ho & ->).
  unfold get_order_by_id, get_all_orders, get_user_orders, placed. simpl.
  rewrite lookup_insert_eq, next_id_fresh.
  split; [done|]. split; [done|].
  split; [apply elem_of_map_to_list, lookup_insert_eq|].
  intros other_id [j o].
  rewrite !(elem_of_select (λ r, o_user_id r.2 = other_id)). simpl.
  destruct (decide (next_id (orders d) = j)) as [<-|Hne].
  - rewrite lookup_insert_eq, next_id_fresh. split.
    + intros [[= <-] Hu]. right. split; [|done]. by rewrite Ho in Hu.
    + intros [[? _]|[-> [= <-]]]; [done|]. split; [done|]. by rewrite Ho.
  - rewrite lookup_insert_ne by done. split; [by left|].
    intros [?|[_ [= ? _]]]; done.
Qed.

Lemma add_items_keeps order_id t data k item :
  t !! k = Some item → foldl (add_item order_id) t data !! k = Some item.
Proof.
  revert t. induction data as [|x data IH]; intros t Hk; [done|].
  simpl. apply IH. unfold add_item. rewrite lookup_insert_ne; [done|].
  intros <-. by rewrite next_id_fresh in Hk.
Qed.

Section Receipts.
Variable hash_password : string → string.

(** Only order placement and status updates write orders and order
    items. *)
Lemma receipts_exec d o :
  match o with
  | PlaceOrder _ _ _ | UpdateOrderStatus _ _ => True
  | _ => orders (exec hash_password d o) = orders d ∧
         order_items (exec hash_password d o) = order_items d
  end.
Proof.
  destruct o as [user_data|dish_data|i dish_data|i|u cart_data|u i update_data
                 |u i|u|s u order_data|i status]; simpl; try done.
  - unfold register_user. by destruct (head _).
  - unfold update_dish. destruct (dishes d !! i); [|done].
    by destruct (update_fields _ _).
  - unfold delete_dish. by destruct (dishes d !! i).
  - unfold add_to_cart. destruct (dishes d !! _); [|done].
    destruct (_ || _); [done|]. destruct (head _); [|done].
    by destruct (bool_decide _).
  - unfold update_cart_item. destruct (cart_items d !! i); [|done].
    destruct (decide _); [|done]. destruct (dishes d !! _); [|done].
    by destruct (_ || _).
  - unfold remove_from_cart. destruct (cart_items d !! i); [|done].
    by destruct (decide _).
Qed.

Lemma exec_keeps_items d o k item :
  order_items d !! k = Some item →
  order_items (exec hash_password d o) !! k = Some item.
Proof.
  intros Hk. pose proof (receipts_exec d o) as Hr.
  destruct o as [?|?|? ?|?|? ?|? ? ?|? ?|?|s u order_data|i status];
    [by destruct Hr as [_ ->]..| |].
  - simpl. destruct (create_order_cases s d u order_data)
      as [[-> _]|(total & data & _ & _ & ->)]; [done|].
    cbv zeta. destruct (commit_ok s 0); [|done].
    destruct (commit_ok s 1); [|done]. simpl. by apply add_items_keeps.
  - simpl. unfold update_order_status. by destruct (orders d !! i).
Qed.

Lemma same_receipt_refl order : same_receipt order order.
Proof. by repeat split. Qed.

Lemma same_receipt_trans o1 o2 o3 :
  same_receipt o1 o2 → same_receipt o2 o3 → same_receipt o1 o3.
Proof.
  intros (? & ? & ? & ? & ?) (? & ? & ? & ? & ?). repeat split; congruence.
Qed.

Lemma exec_keeps_orders d o i order :
  orders d !! i = Some order →
  ∃ order', orders (exec hash_password d o) !! i = Some order' ∧
            same_receipt order order'.
Proof.
  intros Hi. pose proof (receipts_exec d o) as Hr.
  assert (∀ x, <[next_id (orders d) := x]> (orders d) !! i = Some order)
    as Hfresh.
  { intros x. rewrite lookup_insert_ne; [done|].
    intros <-. by rewrite next_id_fresh in Hi. }
  destruct o as [?|?|? ?|?|? ?|? ? ?|? ?|?|s u order_data|j status];
    [by destruct Hr as [-> _]; exists order; split;
       [|apply same_receipt_refl]..| |].
  - exists order. split; [|apply same_receipt_refl]. simpl.
    destruct (create_order_cases s d u order_data)
      as [[-> _]|(total & data & _ & _ & ->)]; [done|].
    cbv zeta. destruct (commit_ok s 0); [|done].
    destruct (commit_ok s 1); apply Hfresh.
  - simpl. unfold update_order_status.
    destruct (orders d !! j) as [o|] eqn:Hj.
    + simpl. destruct (decide (j = i)) as [->|Hne].
      * rewrite lookup_insert_eq. exists (with_status o status).
        split; [done|]. rewrite Hi in Hj. by injection Hj as <-.
      * rewrite lookup_insert_ne by done. exists order.
        split; [done|apply same_receipt_refl].
    + exists order. split; [done|apply same_receipt_refl].
Qed.

(** X17. Orders and order items are permanent: whatever service calls
    follow, an order item stays as it was written, and an order stays in
    the table with its user, pickup time, delivery type, total and remarks;
    only its status may change.  In particular a later change of a dish's
    price does not reach the unit prices of the orders placed. *)
Theorem receipts_are_permanent (ops more : list op) :
  (∀ k item,
     order_items (run hash_password ops) !! k = Some item →
     order_items (run hash_password (ops ++ more)) !! k = Some item) ∧
  (∀ i order,
     orders (run hash_password ops) !! i = Some order →
     ∃ order', orders (run hash_password (ops ++ more)) !! i = Some order' ∧
               same_receipt order order').
Proof.
  induction more as [|o more [IHi IHo]] using rev_ind.
  - rewrite app_nil_r. split; [done|]. intros i order Hi. exists order.
    split; [done|apply same_receipt_refl].
  - rewrite app_assoc, run_snoc. split.
    + intros k item Hk. by apply exec_keeps_items, IHi.
    + intros i order Hi. destruct (IHo i order Hi) as (o1 & H1 & Hs1).
      destruct (exec_keeps_orders _ o i o1 H1) as (o2 & H2 & Hs2).
      exists o2. split; [done|]. by eapply same_receipt_trans.
Qed.

End Receipts.

(** The items of the earlier orders are not touched by a new order. *)
Lemma placed_order_items_other d user_id order_id order data j :
  j ≠ order_id →
  (get_order_items (placed d user_id order_id order data) j).*2 ≡ₚ
    (get_order_items d j).*2.
Proof.
  intros Hne. unfold get_order_items, select, placed. cbn [order_items].
  rewrite !(filter_values _ (λ item, oi_order_id item = j)) by done.
  rewrite add_items_values, filter_app.
  rewrite (filter_none _ (order_item_of order_id <$> data)); [done|].
  apply Forall_forall. intros item Hin.
  apply list_elem_of_fmap in Hin as (item' & -> & _). simpl. congruence.
Qed.

Lemma orders_balanced_tables d d' :
  orders d' = orders d → order_items d' = order_items d →
  orders_balanced d → orders_balanced d'.
Proof.
  intros Ho Hi Hb. unfold orders_balanced, get_order_items in *.
  by rewrite Ho, Hi.
Qed.

Section Balance.
Variable hash_password : string → string.

Lemma orders_balanced_exec d o :
  fault_free o → order_items_owned d →
  orders_balanced d → orders_balanced (exec hash_password d o).
Proof.
  intros Hfree Hown Hb. pose proof (receipts_exec hash_password d o) as Hr.
  destruct o as [?|?|? ?|?|? ?|? ? ?|? ?|?|s u order_data|i status];
    [by destruct Hr as [Ho Hi]; apply (orders_balanced_tables d)..| |].
  - simpl in Hfree. subst s. simpl.
    destruct (create_order_healthy d u order_data)
      as [[Hf _]|(total & data & _ & Hv & Hs)].
    { unfold create_order_from_cart in Hf. by rewrite Hf. }
    unfold create_order_from_cart in Hs. rewrite Hs. simpl.
    apply validate_lines_Some in Hv as (data' & Hd' & Ht & Hall).
    simpl in Hd'. subst data'.
    intros j o Hj. simpl in Hj.
    destruct (decide (next_id (orders d) = j)) as [<-|Hne].
    + rewrite lookup_insert_eq in Hj. injection Hj as <-.
      rewrite (sum_list_Z_perm _ (oi_subtotal <$> (order_item_of
                 (next_id (orders d)) <$> data))).
      * rewrite <- list_fmap_compose. simpl. rewrite Ht.
        unfold sum_list_Z at 2. f_equal.
      * by rewrite placed_order_items by (done || apply next_id_fresh).
    + rewrite lookup_insert_ne in Hj by done.
      rewrite (sum_list_Z_perm _ (oi_subtotal <$> (get_order_items d j).*2)).
      * exact (Hb j o Hj).
      * by rewrite placed_order_items_other.
  - simpl. unfold update_order_status.
    destruct (orders d !! i) as [o|] eqn:Hi; [|done]. simpl.
    intros j o' Hj. simpl in Hj.
    change (get_order_items (set_orders (insert i (with_status o status)) d) j)
      with (get_order_items d j).
    destruct (decide (i = j)) as [<-|Hne].
    + rewrite lookup_insert_eq in Hj. injection Hj as <-. exact (Hb i o Hi).
    + rewrite lookup_insert_ne in Hj by done. exact (Hb j o' Hj).
Qed.

(** X18. As long as the storage does not fail, the total of every order
    in the database is the sum of the subtotals of its order items,
    whatever service calls are made: later orders, status updates and
    price changes included. *)
Theorem orders_stay_balanced (ops : list op) :
  Forall valid_op ops → Forall fault_free ops →
  ∀ i order,
    orders (run hash_password ops) !! i = Some order →
    sum_list_Z (oi_subtotal <$>
      (get_order_items (run hash_password ops) i).*2) = o_total_amount order.
Proof.
  induction ops as [|o ops IH] using rev_ind; intros Hv Hf; [done|].
  rewrite Forall_app, Forall_singleton in Hv, Hf.
  destruct Hv as [Hv Ho], Hf as [Hf Hfo].
  rewrite run_snoc. apply orders_balanced_exec; [done| |].
  - apply run_invariant, Hv.
  - intros i order. by apply IH.
Qed.

Lemma order_items_sound_exec d o :
  cart_quantities_pos d → order_items_sound d →
  order_items_sound (exec hash_password d o).
Proof.
  intros Hq Hs. pose proof (receipts_exec hash_password d o) as Hr.
  unfold order_items_sound.
  destruct o as [?|?|? ?|?|? ?|? ? ?|? ?|?|s u order_data|i status];
    [by destruct Hr as [_ ->]..| |].
  - simpl. destruct (create_order_cases s d u order_data)
      as [[-> _]|(total & data & _ & Hv & ->)]; [done|].
    cbv zeta. destruct (commit_ok s 0); [|done].
    destruct (commit_ok s 1); [|done]. simpl.
    apply validate_lines_Some in Hv as (data' & Hd' & _ & Hall).
    simpl in Hd'. subst data'.
    apply (add_items_Forall
             (λ item, 1 ≤ oi_quantity item ∧
                      oi_subtotal item = oi_unit_price item * oi_quantity item));
      [done|].
    apply Forall_forall. intros item Hin.
    destruct (validated_item item Hall Hin)
      as ([k line] & dish & Hl & _ & _ & _ & ->).
    unfold get_cart_items in Hl. apply elem_of_select in Hl as [Hk _].
    simpl. split; [exact (Hq k line Hk)|done].
  - simpl. unfold update_order_status. by destruct (orders d !! i).
Qed.

(** X19. Whatever the history of service calls, storage faults included,
    every order item belongs to an order of the table, holds at least one
    unit, and has its unit price times its quantity as subtotal; and every
    cart row holds at least one unit. *)
Theorem rows_stay_sound (ops : list op) :
  Forall valid_op ops →
  (∀ k item,
     order_items (run hash_password ops) !! k = Some item →
     is_Some (orders (run hash_password ops) !! oi_order_id item) ∧
     1 ≤ oi_quantity item ∧
     oi_subtotal item = oi_unit_price item * oi_quantity item) ∧
  (∀ k line, cart_items (run hash_password ops) !! k = Some line →
             1 ≤ ci_quantity line).
Proof.
  intros Hv. pose proof (run_invariant hash_password ops Hv) as [_ _ Hq _ Hown].
  split; [|exact Hq].
  assert (order_items_sound (run hash_password ops)) as Hs.
  { clear Hq Hown. induction ops as [|o ops IH] using rev_ind; [done|].
    rewrite Forall_app, Forall_singleton in Hv. destruct Hv as [Hv Ho].
    rewrite run_snoc. apply order_items_sound_exec; [|by apply IH].
    apply run_invariant, Hv. }
  intros k item Hk. split; [exact (Hown k item Hk)|exact (Hs k item Hk)].
Qed.

End Balance.

(** ** Prices, repeated additions and retries *)

Lemma cart_total_sum d user_id :
  get_cart_total d user_id =
    sum_list_Z (line_amount (dishes d) <$> get_cart_items d user_id).
Proof.
  unfold get_cart_total.
  assert (∀ lines total,
    foldl (λ total item,
             match dishes d !! ci_dish_id item.2 with
             | Some dish => total + d_price dish * ci_quantity item.2
             | None => total
             end) total lines
      = total + sum_list_Z (line_amount (dishes d) <$> lines)) as Hfold.
  { induction lines as [|line lines IH]; intros total.
    - unfold sum_list_Z. simpl. lia.
    - cbn [foldl]. rewrite IH. unfold sum_list_Z. rewrite fmap_cons.
      cbn [foldr]. unfold line_amount at 2.
      destruct (dishes d !! ci_dish_id line.2); lia. }
  rewrite Hfold. lia.
Qed.

Lemma line_amount_reprice (ds : gmap Z Dish) dish_id dish dish' lines :
  ds !! dish_id = Some dish →
  sum_list_Z (line_amount (<[dish_id := dish']> ds) <$> lines) =
    sum_list_Z (line_amount ds <$> lines)
    + (d_price dish' - d_price dish)
      * sum_list_Z (ci_quantity <$>
                      filter (λ line, ci_dish_id line = dish_id) lines.*2).
Proof.
  intros Hd. induction lines as [|[k line] lines IH].
  - unfold sum_list_Z. simpl. lia.
  - rewrite !fmap_cons, filter_cons. cbn [snd].
    unfold sum_list_Z in *. cbn [foldr]. rewrite IH. clear IH.
    unfold line_amount. cbn [snd].
    destruct (decide (ci_dish_id line = dish_id)) as [->|Hne].
    + rewrite lookup_insert_eq, Hd, fmap_cons. cbn [foldr]. lia.
    + rewrite lookup_insert_ne by done. lia.
Qed.

(** X20. The total of a cart follows the prices of the dishes as they
    are: when the price of a dish is changed, the total of every cart
    changes by the difference of the prices times the units of that dish
    in the cart. *)
Theorem cart_total_follows_price (d : db) (dish_id : Z) (dish : Dish)
    (price : Z) (user_id : Z) :
  dishes d !! dish_id = Some dish →
  get_cart_total (update_dish d dish_id (price_update price)).1 user_id =
    get_cart_total d user_id
    + (price - d_price dish) * units_in_cart d user_id dish_id.
Proof.
  intros Hd. rewrite !cart_total_sum. unfold update_dish. rewrite Hd.
  simpl. unfold units_in_cart.
  change (get_cart_items (set_dishes _ d) user_id)
    with (get_cart_items d user_id).
  by rewrite (line_amount_reprice _ _ dish).
Qed.

Lemma set_cart_items_twice f g d :
  set_cart_items f (set_cart_items g d) = set_cart_items (λ t, f (g t)) d.
Proof. done. Qed.

(** X21. Adding a dish to a cart in two calls that both succeed leaves
    the database as adding the two quantities in one call does. *)
Theorem add_to_cart_adds_up (d : db) (user_id dish : Z) (q1 q2 : Z) :
  cart_unique d → cart_quantities_pos d →
  (add_to_cart d user_id (mkCartItemCreate dish q1)).2 ≠ None →
  (add_to_cart (add_to_cart d user_id (mkCartItemCreate dish q1)).1 user_id
     (mkCartItemCreate dish q2)).2 ≠ None →
  (add_to_cart (add_to_cart d user_id (mkCartItemCreate dish q1)).1 user_id
     (mkCartItemCreate dish q2)).1 =
  (add_to_cart d user_id (mkCartItemCreate dish (q1 + q2))).1.
Proof.
  intros Hun Hq.
  destruct (cart_line_dec d user_id dish) as [(k & e & Hl)|Hn].
  - pose proof Hl as (Hk & Hu & Hd).
    rewrite (add_to_cart_existing d user_id (mkCartItemCreate dish q1) k e Hun Hl).
    rewrite (add_to_cart_existing d user_id (mkCartItemCreate dish (q1 + q2))
               k e Hun Hl).
    simpl. destruct (dishes d !! dish) as [dd|] eqn:Hdd; [|done].
    destruct (negb (d_is_available dd)) eqn:Ha; [done|]. simpl.
    repeat case_bool_decide; simpl; try done.
    all: intros _.
    all: set (e1 := with_quantity e (ci_quantity e + q1)).
    all: assert (cart_unique (set_cart_items (insert k e1) d)) as Hun1
           by by eapply cart_unique_rewrite.
    all: assert (cart_line (set_cart_items (insert k e1) d) user_id dish k e1)
           as Hl1 by (split; [apply lookup_insert_eq|done]).
    all: rewrite (add_to_cart_existing _ user_id (mkCartItemCreate dish q2)
                    k e1 Hun1 Hl1); simpl; rewrite Hdd, Ha; simpl.
    all: pose proof (Hq k e Hk) as Hpos; simpl in Hpos.
    all: repeat case_bool_decide; simpl; try done; try lia.
    all: intros _; rewrite set_cart_items_twice; unfold set_cart_items;
      f_equal; rewrite insert_insert_eq; f_equal;
      unfold with_quantity, e1; simpl; f_equal; lia.
  - rewrite (add_to_cart_fresh d user_id (mkCartItemCreate dish q1) Hn).
    rewrite (add_to_cart_fresh d user_id (mkCartItemCreate dish (q1 + q2)) Hn).
    simpl. destruct (dishes d !! dish) as [dd|] eqn:Hdd; [|done].
    destruct (negb (d_is_available dd)) eqn:Ha; [done|]. simpl.
    case_bool_decide; simpl; [done|]. intros _.
    set (k := next_id (cart_items d)).
    set (e1 := mkCartItem user_id dish q1).
    assert (cart_unique (set_cart_items (insert k e1) d)) as Hun1
      by by apply cart_unique_fresh.
    assert (cart_line (set_cart_items (insert k e1) d) user_id dish k e1)
      as Hl1 by (split; [apply lookup_insert_eq|done]).
    rewrite (add_to_cart_existing _ user_id (mkCartItemCreate dish q2)
               k e1 Hun1 Hl1); simpl; rewrite Hdd, Ha; simpl.
    repeat case_bool_decide; simpl; try done; try lia.
    intros _. rewrite set_cart_items_twice. unfold set_cart_items.
    f_equal. by rewrite insert_insert_eq.
Qed.

Lemma get_order_items_fresh d :
  order_items_owned d → get_order_items d (next_id (orders d)) = [].
Proof.
  intros Hown. unfold get_order_items.
  apply (select_nil (λ r, oi_order_id r.2 = next_id (orders d))).
  intros k item Hk Heq. simpl in Heq.
  destruct (Hown k item Hk) as [o Ho]. rewrite Heq, next_id_fresh in Ho. done.
Qed.

(** X22. When the storage fails at the second commit of an order the cart
    allows, the order row stays behind with the cart intact; placing the
    order again then succeeds under a new id, and the row left behind
    remains among the user's orders with no order item at all. *)
Theorem retry_leaves_empty_order (d : db) (user_id : Z)
    (order_data : OrderCreate) (order_id : Z) (order : Order) :
  order_items_owned d →
  (create_order_from_cart d user_id order_data).2 =
    Returned (Some (order_id, order)) →
  create_order_from_cart_on (FaultAfter 1) d user_id order_data =
    (set_orders (insert order_id order) d, Raised) ∧
  ∃ d2 order_id',
    create_order_from_cart (set_orders (insert order_id order) d)
      user_id order_data = (d2, Returned (Some (order_id', order))) ∧
    order_id' ≠ order_id ∧
    (order_id, order) ∈ get_user_orders d2 user_id ∧
    (order_id', order) ∈ get_user_orders d2 user_id ∧
    get_order_items d2 order_id = [].
Proof.
  intros Hown Hr.
  destruct (create_order_healthy d user_id order_data)
    as [[Hf _]|(total & data & Hne & Hv & Hs)].
  { rewrite Hf in Hr. done. }
  rewrite Hs in Hr. simpl in Hr. injection Hr as <- <-.
  set (order := new_order user_id order_data total).
  set (d1 := set_orders (insert (next_id (orders d)) order) d).
  split.
  { destruct (create_order_cases (FaultAfter 1) d user_id order_data)
      as [[_ [Hc|Hc]]|(total' & data' & _ & Hv' & ->)].
    - done.
    - exfalso. apply Hc. by eapply validate_lines_None_inv.
    - rewrite Hv in Hv'. by injection Hv' as <- <-. }
  destruct (create_order_healthy d1 user_id order_data)
    as [[_ [Hc|Hc]]|(total' & data' & _ & Hv' & Hs')].
  - done.
  - exfalso. apply Hc. apply (validate_lines_None_inv _ _ _ _ _ Hv).
  - change (validate_lines (dishes d1) (get_cart_items d1 user_id) 0 [])
      with (validate_lines (dishes d) (get_cart_items d user_id) 0 []) in Hv'.
    rewrite Hv in Hv'. injection Hv' as <- <-.
    assert (next_id (orders d1) ≠ next_id (orders d)) as Hids.
    { intros Heq. pose proof (next_id_fresh (orders d1)) as Hfresh.
      rewrite Heq in Hfresh. unfold d1 in Hfresh. simpl in Hfresh.
      by rewrite lookup_insert_eq in Hfresh. }
    eexists _, _. split; [exact Hs'|]. split; [done|].
    unfold get_user_orders.
    split; [|split].
    + apply (elem_of_select (λ r, o_user_id r.2 = user_id)). split; [|done].
      simpl. rewrite lookup_insert_ne by done. apply lookup_insert_eq.
    + apply (elem_of_select (λ r, o_user_id r.2 = user_id)). split; [|done].
      simpl. apply lookup_insert_eq.
    + apply (fmap_nil_inv snd). apply Permutation_nil_r.
      rewrite placed_order_items_other by done.
      change (get_order_items d1 (next_id (orders d)))
        with (get_order_items d (next_id (orders d))).
      by rewrite get_order_items_fresh.
Qed.

(** ** The examples, checked *)

Lemma office_reached : dept_run office_history = office.
Proof. by vm_compute. Qed.

Lemma register_user_conflict_witness :
  register_user tag_hash empty_db shop_user =
    ((register_user tag_hash empty_db shop_user).1,
     Some (1, new_user tag_hash shop_user)) ∧
  register_user tag_hash
    (foldl (exec tag_hash) (register_user tag_hash empty_db shop_user).1
       [ CreateDish shop_pizza;
         Register (mkUserCreate "W" "w@example.com" "password456"
                     "555-0102" None);
         AddToCart 2 (mkCartItemCreate 1 2) ])
    (mkUserCreate "V" "u@example.com" "another-password" "555-0101" None) =
    (foldl (exec tag_hash) (register_user tag_hash empty_db shop_user).1
       [ CreateDish shop_pizza;
         Register (mkUserCreate "W" "w@example.com" "password456"
                     "555-0102" None);
         AddToCart 2 (mkCartItemCreate 1 2) ],
     None) ∧
  get_user_by_id
    (foldl (exec tag_hash) (register_user tag_hash empty_db shop_user).1
       [ CreateDish shop_pizza;
         Register (mkUserCreate "W" "w@example.com" "password456"
                     "555-0102" None);
         AddToCart 2 (mkCartItemCreate 1 2) ]) 1 =
    Some (1, mkUser "U" "u@example.com" "#password123" "555-0100"
               REGULAR None true).
Proof.
  assert (register_user tag_hash empty_db shop_user =
            ((register_user tag_hash empty_db shop_user).1,
             Some (1, new_user tag_hash shop_user))) as Hr by (by vm_compute).
  split; [exact Hr|].
  destruct (register_user_conflict tag_hash _ _ _ _
              [ CreateDish shop_pizza;
                Register (mkUserCreate "W" "w@example.com" "password456"
                            "555-0102" None);
                AddToCart 2 (mkCartItemCreate 1 2) ] Hr) as (Hdup & Hget & _).
  split; [by apply Hdup|exact Hget].
Defined.

Lemma office_history_keeps_names : Forall keeps_name office_history.
Proof. repeat constructor. Defined.

Lemma department_names_unique_witness :
  (Forall keeps_name office_history ∧
   dept_run office_history !! 1 =
     Some (mkDepartment "Engineering" (Some "Tech team") true) ∧
   dept_run office_history !! 2 = Some (mkDepartment "Kitchen" None true) ∧
   1 ≠ 2) ∧
  dp_name (mkDepartment "Engineering" (Some "Tech team") true) ≠
    dp_name (mkDepartment "Kitchen" None true) ∧
  dept_run office_history !! 3 = None.
Proof.
  assert (dept_run office_history !! 1 =
            Some (mkDepartment "Engineering" (Some "Tech team") true)) as H1
    by (by vm_compute).
  assert (dept_run office_history !! 2 =
            Some (mkDepartment "Kitchen" None true)) as H2
    by (by vm_compute).
  assert (1 ≠ 2) as Hne by lia.
  split; [by repeat split; try apply office_history_keeps_names|].
  split; [|by vm_compute].
  exact (department_names_unique office_history 1 2 _ _
           office_history_keeps_names H1 H2 Hne).
Defined.

Lemma delete_department_soft_witness :
  office !! 1 = Some (mkDepartment "Engineering" (Some "Tech team") true) ∧
  create_department (delete_department office 1).1
    (mkDepartmentCreate "Engineering" None) =
    ((delete_department office 1).1, None).
Proof.
  assert (office !! 1 = Some (mkDepartment "Engineering" (Some "Tech team") true))
    as H1 by (by vm_compute).
  split; [exact H1|].
  destruct (delete_department_soft office 1 _ H1) as (_ & _ & Htaken & _).
  by apply Htaken.
Defined.

Lemma create_department_listed_witness :
  (create_department
     {[ 1 := mkDepartment "Engineering" (Some "Tech team") true ]}
     (mkDepartmentCreate "Kitchen" None) =
     ({[ 1 := mkDepartment "Engineering" (Some "Tech team") true;
         2 := mkDepartment "Kitchen" (Some "") true ]},
      Some (2, mkDepartment "Kitchen" (Some "") true)) ∧
   Forall keeps_name
     [ UpdateDepartment 2
         (mkDepartmentUpdate Unset (Assigned (Some "Closed")) Unset);
       DeleteDepartment 2 ]) ∧
  (2, mkDepartment "Kitchen" (Some "") true) ∈
    get_all_departments
      {[ 1 := mkDepartment "Engineering" (Some "Tech team") true;
         2 := mkDepartment "Kitchen" (Some "") true ]} ∧
  create_department
    (foldl dept_exec
       {[ 1 := mkDepartment "Engineering" (Some "Tech team") true;
          2 := mkDepartment "Kitchen" (Some "") true ]}
       [ UpdateDepartment 2
           (mkDepartmentUpdate Unset (Assigned (Some "Closed")) Unset);
         DeleteDepartment 2 ])
    (mkDepartmentCreate "Kitchen" (Some "Again")) =
    (foldl dept_exec
       {[ 1 := mkDepartment "Engineering" (Some "Tech team") true;
          2 := mkDepartment "Kitchen" (Some "") true ]}
       [ UpdateDepartment 2
           (mkDepartmentUpdate Unset (Assigned (Some "Closed")) Unset);
         DeleteDepartment 2 ],
     None).
Proof.
  assert (create_department
            {[ 1 := mkDepartment "Engineering" (Some "Tech team") true ]}
            (mkDepartmentCreate "Kitchen" None) =
            ({[ 1 := mkDepartment "Engineering" (Some "Tech team") true;
                2 := mkDepartment "Kitchen" (Some "") true ]},
             Some (2, mkDepartment "Kitchen" (Some "") true))) as Hc
    by (by vm_compute).
  assert (Forall keeps_name
            [ UpdateDepartment 2
                (mkDepartmentUpdate Unset (Assigned (Some "Closed")) Unset);
              DeleteDepartment 2 ]) as Hkeep by (by repeat constructor).
  split; [by split|].
  destruct (create_department_listed _ _ _ _ _ Hc Hkeep)
    as (_ & _ & _ & _ & _ & Hin & _ & Hdup).
  split; [exact Hin|]. by apply Hdup.
Defined.

Lemma edit_department_same_name_witness :
  office !! 2 = Some (mkDepartment "Kitchen" None true) ∧
  edit_department office (2, mkDepartment "Kitchen" None true)
    "Kitchen" "Where the pizza is made" = (office, Raised).
Proof.
  assert (office !! 2 = Some (mkDepartment "Kitchen" None true)) as H2
    by (by vm_compute).
  split; [exact H2|].
  exact (edit_department_same_name office (2, mkDepartment "Kitchen" None true)
           _ "Where the pizza is made" H2).
Defined.

Lemma delete_dish_soft_witness :
  dishes shop_db !! 1 = Some (mkDish "Pizza" 1599 "" None "Pizza" 10 true) ∧
  create_order_from_cart (delete_dish shop_db 1).1 1 shop_order =
    ((delete_dish shop_db 1).1, Returned None) ∧
  add_to_cart (delete_dish shop_db 1).1 2 (mkCartItemCreate 1 1) =
    ((delete_dish shop_db 1).1, None).
Proof.
  assert (dishes shop_db !! 1 = Some (mkDish "Pizza" 1599 "" None "Pizza" 10 true))
    as Hd by (by vm_compute).
  split; [exact Hd|].
  destruct (delete_dish_soft shop_db 1 _ Hd) as (_ & _ & _ & Hadd & Hord & _).
  split.
  - apply (Hord Healthy 1 shop_order 1 (mkCartItem 1 1 2)); by vm_compute.
  - by apply Hadd.
Defined.

Lemma edit_dish_unchanged_field_witness :
  (dishes shop_db !! 1 = Some (mkDish "Pizza" 1599 "" None "Pizza" 10 true) ∧
   "Pizza" = "Pizza") ∧
  edit_dish shop_db (1, mkDish "Pizza" 1599 "" None "Pizza" 10 true)
    "Pizza" "Italian" 1699 "Now with basil" "" 12 = (shop_db, Raised).
Proof.
  assert (dishes shop_db !! 1 = Some (mkDish "Pizza" 1599 "" None "Pizza" 10 true))
    as Hd by (by vm_compute).
  split; [done|].
  apply (edit_dish_unchanged_field shop_db
           (1, mkDish "Pizza" 1599 "" None "Pizza" 10 true) _
           "Pizza" "Italian" 1699 "Now with basil" "" 12 Hd).
  by left.
Defined.


Lemma create_dish_found_witness :
  create_dish_stored shop_db (mkDishCreate "Salad" 899 "" None "Salad" 5) =
    (set_dishes (insert 2 (mkDish "Salad" 899 "" None "Salad" 5 true)) shop_db,
     Returned (2, mkDish "Salad" 899 "" None "Salad" 5 true)) ∧
  (DishCreate_valid (mkDishCreate "Salad" 899 "" None "Salad" 2147483648) ∧
   create_dish_stored shop_db
     (mkDishCreate "Salad" 899 "" None "Salad" 2147483648) =
     (shop_db, Raised)).
Proof.
  split.
  - destruct (create_dish_found shop_db
                (mkDishCreate "Salad" 899 "" None "Salad" 5)) as [Hok _].
    destruct Hok as (id & dish & Hs & _); [by vm_compute..|].
    rewrite Hs. by vm_compute in Hs.
  - split; [by vm_compute|].
    destruct (create_dish_found shop_db
                (mkDishCreate "Salad" 899 "" None "Salad" 2147483648))
      as [_ Hno].
    apply Hno. intros [Hs _]. unfold int_fits, max_int in Hs. simpl in Hs. lia.
Defined.

Lemma update_order_status_overwrites_witness :
  orders (create_order_from_cart shop_db 1 shop_order).1 !! 1 =
    Some (mkOrder 1 0 PICKUP PENDING 3198 "") ∧
  update_order_status (create_order_from_cart shop_db 1 shop_order).1 1
    COMPLETED =
    (set_orders (insert 1 (mkOrder 1 0 PICKUP COMPLETED 3198 ""))
       (create_order_from_cart shop_db 1 shop_order).1,
     Some (1, mkOrder 1 0 PICKUP COMPLETED 3198 "")) ∧
  update_order_status
    (update_order_status (create_order_from_cart shop_db 1 shop_order).1 1
       COMPLETED).1 1 PENDING =
    update_order_status (create_order_from_cart shop_db 1 shop_order).1 1
      PENDING.
Proof.
  assert (orders (create_order_from_cart shop_db 1 shop_order).1 !! 1 =
            Some (mkOrder 1 0 PICKUP PENDING 3198 "")) as Ho
    by (by vm_compute).
  split; [exact Ho|].
  destruct (update_order_status_overwrites
              (create_order_from_cart shop_db 1 shop_order).1 1
              COMPLETED PENDING) as [_ Hsome].
  destruct (Hsome _ Ho)
    as (order' & Hu & Hst & (Hf1 & Hf2 & Hf3 & Hf4 & Hf5) & _ & _ & _ & Hagain).
  split; [|exact Hagain].
  rewrite Hu. destruct order'. simpl in *. by subst.
Defined.

Lemma shop_order_returned :
  create_order_from_cart shop_db 1 shop_order =
    ((create_order_from_cart shop_db 1 shop_order).1,
     Returned (Some (1, mkOrder 1 0 PICKUP PENDING 3198 ""))).
Proof. by vm_compute. Defined.

Lemma cart_total_is_order_total_witness :
  create_order_from_cart shop_db 1 shop_order =
    ((create_order_from_cart shop_db 1 shop_order).1,
     Returned (Some (1, mkOrder 1 0 PICKUP PENDING 3198 ""))) ∧
  3198 = get_cart_total shop_db 1 ∧
  get_cart_total (create_order_from_cart shop_db 1 shop_order).1 1 = 0.
Proof.
  split; [exact shop_order_returned|].
  exact (cart_total_is_order_total shop_db _ 1 shop_order 1 _ shop_order_returned).
Defined.

Lemma create_order_once_witness :
  create_order_from_cart shop_db 1 shop_order =
    ((create_order_from_cart shop_db 1 shop_order).1,
     Returned (Some (1, mkOrder 1 0 PICKUP PENDING 3198 ""))) ∧
  create_order_from_cart (create_order_from_cart shop_db 1 shop_order).1 1
    shop_order =
    ((create_order_from_cart shop_db 1 shop_order).1, Returned None).
Proof.
  split; [exact shop_order_returned|].
  exact (create_order_once shop_db _ 1 shop_order 1 _ shop_order_returned
           Healthy shop_order).
Defined.

Lemma create_order_listed_witness :
  create_order_from_cart shop_db 1 shop_order =
    ((create_order_from_cart shop_db 1 shop_order).1,
     Returned (Some (1, mkOrder 1 0 PICKUP PENDING 3198 ""))) ∧
  get_order_by_id (create_order_from_cart shop_db 1 shop_order).1 1 =
    Some (1, mkOrder 1 0 PICKUP PENDING 3198 "").
Proof.
  split; [exact shop_order_returned|].
  by destruct (create_order_listed shop_db _ 1 shop_order 1 _
                 shop_order_returned) as [Hfound _].
Defined.

Lemma rush_db_invariant : db_invariant rush_db.
Proof. constructor; by_evaluation. Defined.

Lemma rush_order_returned :
  create_order_from_cart rush_db 1 shop_order =
    ((create_order_from_cart rush_db 1 shop_order).1,
     Returned (Some (1, mkOrder 1 0 PICKUP PENDING 1599 ""))).
Proof. by vm_compute. Defined.

Lemma create_order_contention_witness :
  (cart_unique rush_db ∧ dish_keys_pos rush_db ∧
   create_order_from_cart rush_db 1 shop_order =
     ((create_order_from_cart rush_db 1 shop_order).1,
      Returned (Some (1, mkOrder 1 0 PICKUP PENDING 1599 "")))) ∧
  create_order_from_cart (create_order_from_cart rush_db 1 shop_order).1 2
    shop_order =
    ((create_order_from_cart rush_db 1 shop_order).1, Returned None) ∧
  d_stock_quantity <$>
    dishes (create_order_from_cart rush_db 1 shop_order).1 !! 1 = Some 0.
Proof.
  pose proof rush_db_invariant as [_ Hkeys _ Hun _].
  split; [by repeat split; try exact rush_order_returned|].
  split; [|by vm_compute].
  apply (create_order_contention rush_db _ 1 2 shop_order 1 _
           1 2 (mkCartItem 1 1 1) (mkCartItem 2 1 1)
           (mkDish "Pizza" 1599 "" None "Pizza" 1 true)
           Hun Hkeys rush_order_returned); by vm_compute.
Defined.

Lemma cart_rows_of_others_witness :
  ci_user_id (mkCartItem 2 1 1) ≠ 1 ∧
  (cart_items (create_order_from_cart_on Healthy rush_db 1 shop_order).1 !! 2
     = Some (mkCartItem 2 1 1) ↔
   cart_items rush_db !! 2 = Some (mkCartItem 2 1 1)).
Proof.
  assert (ci_user_id (mkCartItem 2 1 1) ≠ 1) as Hne by (simpl; lia).
  split; [exact Hne|].
  destruct (cart_rows_of_others rush_db 1 2 (mkCartItem 2 1 1) Hne)
    as (_ & _ & Hord).
  apply Hord.
Defined.

Lemma shop_checkout_valid :
  Forall valid_op (shop_history ++ [PlaceOrder Healthy 1 shop_order]).
Proof. repeat constructor; by vm_compute. Defined.

Lemma shop_checkout_fault_free :
  Forall fault_free (shop_history ++ [PlaceOrder Healthy 1 shop_order]).
Proof. repeat constructor. Defined.

Lemma orders_stay_balanced_witness :
  (Forall valid_op (shop_history ++ [PlaceOrder Healthy 1 shop_order]) ∧
   Forall fault_free (shop_history ++ [PlaceOrder Healthy 1 shop_order]) ∧
   orders (run tag_hash (shop_history ++ [PlaceOrder Healthy 1 shop_order])) !! 1
     = Some (mkOrder 1 0 PICKUP PENDING 3198 "")) ∧
  sum_list_Z (oi_subtotal <$>
    (get_order_items
       (run tag_hash (shop_history ++ [PlaceOrder Healthy 1 shop_order])) 1).*2)
    = 3198.
Proof.
  assert (orders (run tag_hash (shop_history ++ [PlaceOrder Healthy 1 shop_order]))
            !! 1 = Some (mkOrder 1 0 PICKUP PENDING 3198 "")) as Ho
    by (by vm_compute).
  split; [by repeat split; try apply shop_checkout_valid;
             try apply shop_checkout_fault_free|].
  exact (orders_stay_balanced tag_hash _ shop_checkout_valid
           shop_checkout_fault_free 1 _ Ho).
Defined.

Lemma rows_stay_sound_witness :
  Forall valid_op (shop_history ++ [PlaceOrder Healthy 1 shop_order]) ∧
  (∀ k item,
     order_items (run tag_hash (shop_history ++ [PlaceOrder Healthy 1 shop_order]))
       !! k = Some item →
     1 ≤ oi_quantity item).
Proof.
  split; [exact shop_checkout_valid|].
  intros k item Hk.
  destruct (rows_stay_sound tag_hash _ shop_checkout_valid) as [Hitems _].
  by destruct (Hitems k item Hk) as (_ & Hq & _).
Defined.

Lemma cart_total_follows_price_witness :
  dishes shop_db !! 1 = Some (mkDish "Pizza" 1599 "" None "Pizza" 10 true) ∧
  get_cart_total (update_dish shop_db 1 (price_update 1699)).1 1 =
    get_cart_total shop_db 1 + (1699 - 1599) * units_in_cart shop_db 1 1.
Proof.
  assert (dishes shop_db !! 1 = Some (mkDish "Pizza" 1599 "" None "Pizza" 10 true))
    as Hd by (by vm_compute).
  split; [exact Hd|].
  exact (cart_total_follows_price shop_db 1 _ 1699 1 Hd).
Defined.

Lemma add_to_cart_adds_up_witness :
  (cart_unique shop_db ∧ cart_quantities_pos shop_db ∧
   (add_to_cart shop_db 1 (mkCartItemCreate 1 3)).2 ≠ None ∧
   (add_to_cart (add_to_cart shop_db 1 (mkCartItemCreate 1 3)).1 1
      (mkCartItemCreate 1 4)).2 ≠ None) ∧
  (add_to_cart (add_to_cart shop_db 1 (mkCartItemCreate 1 3)).1 1
     (mkCartItemCreate 1 4)).1 =
  (add_to_cart shop_db 1 (mkCartItemCreate 1 (3 + 4))).1.
Proof.
  pose proof shop_db_invariant as [_ _ Hq Hun _].
  assert ((add_to_cart shop_db 1 (mkCartItemCreate 1 3)).2 ≠ None) as H1
    by (by vm_compute).
  assert ((add_to_cart (add_to_cart shop_db 1 (mkCartItemCreate 1 3)).1 1
             (mkCartItemCreate 1 4)).2 ≠ None) as H2 by (by vm_compute).
  split; [done|].
  exact (add_to_cart_adds_up shop_db 1 1 3 4 Hun Hq H1 H2).
Defined.

Lemma retry_leaves_empty_order_witness :
  (order_items_owned shop_db ∧
   (create_order_from_cart shop_db 1 shop_order).2 =
     Returned (Some (1, mkOrder 1 0 PICKUP PENDING 3198 ""))) ∧
  create_order_from_cart_on (FaultAfter 1) shop_db 1 shop_order =
    (set_orders (insert 1 (mkOrder 1 0 PICKUP PENDING 3198 "")) shop_db, Raised).
Proof.
  pose proof (inv_owned _ shop_db_invariant) as Hown.
  assert ((create_order_from_cart shop_db 1 shop_order).2 =
            Returned (Some (1, mkOrder 1 0 PICKUP PENDING 3198 ""))) as Hr
    by (by vm_compute).
  split; [done|].
  exact (proj1 (retry_leaves_empty_order shop_db 1 shop_order 1 _ Hown Hr)).
Defined.
